(** * WiFiBase: known-network registry and connection orchestrator

    A shallow embedding of [src/WiFiBase/WiFiBase.cpp].  The class instance is
    a record that is passed explicitly; the radio, the clock and the config
    portal (the external collaborators) are a [World] that is threaded through
    the operational functions. *)

From Stdlib Require Import ZArith String List Bool Lia.
From stdpp Require Import base list.

Local Open Scope string_scope.
Local Open Scope list_scope.
Local Open Scope Z_scope.

(** ** Data model *)

(** [struct network]: two owned C strings ([strdup] copies of the arguments). *)
Record network := Network { ssid : string; passwd : string }.

(** The fields of the class, in the order the constructor initialises them.
    [_knownNetworks] is the heap array: one slot per allocated element, [None]
    for a slot that [malloc] returned and nothing has written yet.  The widths
    of the counters are declared in WiFiBase.h; they are kept as [Z]. *)
Record WiFiBase := {
  _background : bool;
  _APSsid : option string;
  _APPasswd : option string;
  _running : bool;
  _accessPointEnabled : bool;
  _accessPointActive : bool;
  _numKnownNetworks : Z;
  _allocatedKnownNetworks : Z;
  _knownNetworks : list (option network);
  _connectionTimeoutMs : Z;
  _connectedIndex : Z
}.

(** Field assignments. *)
Definition set_background (b : bool) (t : WiFiBase) : WiFiBase :=
  {| _background := b; _APSsid := _APSsid t; _APPasswd := _APPasswd t;
     _running := _running t; _accessPointEnabled := _accessPointEnabled t;
     _accessPointActive := _accessPointActive t;
     _numKnownNetworks := _numKnownNetworks t;
     _allocatedKnownNetworks := _allocatedKnownNetworks t;
     _knownNetworks := _knownNetworks t;
     _connectionTimeoutMs := _connectionTimeoutMs t;
     _connectedIndex := _connectedIndex t |}.

Definition set_AP (s p : option string) (t : WiFiBase) : WiFiBase :=
  {| _background := _background t; _APSsid := s; _APPasswd := p;
     _running := _running t; _accessPointEnabled := _accessPointEnabled t;
     _accessPointActive := _accessPointActive t;
     _numKnownNetworks := _numKnownNetworks t;
     _allocatedKnownNetworks := _allocatedKnownNetworks t;
     _knownNetworks := _knownNetworks t;
     _connectionTimeoutMs := _connectionTimeoutMs t;
     _connectedIndex := _connectedIndex t |}.

Definition set_accessPointEnabled (b : bool) (t : WiFiBase) : WiFiBase :=
  {| _background := _background t; _APSsid := _APSsid t;
     _APPasswd := _APPasswd t;
     _running := _running t; _accessPointEnabled := b;
     _accessPointActive := _accessPointActive t;
     _numKnownNetworks := _numKnownNetworks t;
     _allocatedKnownNetworks := _allocatedKnownNetworks t;
     _knownNetworks := _knownNetworks t;
     _connectionTimeoutMs := _connectionTimeoutMs t;
     _connectedIndex := _connectedIndex t |}.

Definition set_numKnownNetworks (n : Z) (t : WiFiBase) : WiFiBase :=
  {| _background := _background t; _APSsid := _APSsid t;
     _APPasswd := _APPasswd t;
     _running := _running t; _accessPointEnabled := _accessPointEnabled t;
     _accessPointActive := _accessPointActive t;
     _numKnownNetworks := n;
     _allocatedKnownNetworks := _allocatedKnownNetworks t;
     _knownNetworks := _knownNetworks t;
     _connectionTimeoutMs := _connectionTimeoutMs t;
     _connectedIndex := _connectedIndex t |}.

Definition set_allocatedKnownNetworks (n : Z) (t : WiFiBase) : WiFiBase :=
  {| _background := _background t; _APSsid := _APSsid t;
     _APPasswd := _APPasswd t;
     _running := _running t; _accessPointEnabled := _accessPointEnabled t;
     _accessPointActive := _accessPointActive t;
     _numKnownNetworks := _numKnownNetworks t;
     _allocatedKnownNetworks := n;
     _knownNetworks := _knownNetworks t;
     _connectionTimeoutMs := _connectionTimeoutMs t;
     _connectedIndex := _connectedIndex t |}.

Definition set_knownNetworks (a : list (option network)) (t : WiFiBase)
  : WiFiBase :=
  {| _background := _background t; _APSsid := _APSsid t;
     _APPasswd := _APPasswd t;
     _running := _running t; _accessPointEnabled := _accessPointEnabled t;
     _accessPointActive := _accessPointActive t;
     _numKnownNetworks := _numKnownNetworks t;
     _allocatedKnownNetworks := _allocatedKnownNetworks t;
     _knownNetworks := a;
     _connectionTimeoutMs := _connectionTimeoutMs t;
     _connectedIndex := _connectedIndex t |}.

Definition set_connectionTimeoutMs (ms : Z) (t : WiFiBase) : WiFiBase :=
  {| _background := _background t; _APSsid := _APSsid t;
     _APPasswd := _APPasswd t;
     _running := _running t; _accessPointEnabled := _accessPointEnabled t;
     _accessPointActive := _accessPointActive t;
     _numKnownNetworks := _numKnownNetworks t;
     _allocatedKnownNetworks := _allocatedKnownNetworks t;
     _knownNetworks := _knownNetworks t;
     _connectionTimeoutMs := ms;
     _connectedIndex := _connectedIndex t |}.

Definition set_connectedIndex (i : Z) (t : WiFiBase) : WiFiBase :=
  {| _background := _background t; _APSsid := _APSsid t;
     _APPasswd := _APPasswd t;
     _running := _running t; _accessPointEnabled := _accessPointEnabled t;
     _accessPointActive := _accessPointActive t;
     _numKnownNetworks := _numKnownNetworks t;
     _allocatedKnownNetworks := _allocatedKnownNetworks t;
     _knownNetworks := _knownNetworks t;
     _connectionTimeoutMs := _connectionTimeoutMs t;
     _connectedIndex := i |}.

(** [malloc(sizeof(struct network) * n)]: [n] slots, none written. *)
Definition malloc (n : Z) : list (option network) :=
  replicate (Z.to_nat n) None.

(** [memcpy(dst, src, sizeof(struct network) * n)]: the first [n] slots of
    [dst] become those of [src]. *)
Definition memcpy (dst src : list (option network)) (n : Z)
  : list (option network) :=
  take (Z.to_nat n) src ++ drop (Z.to_nat n) dst.

(** The stored credentials: the written slots among the first
    [_numKnownNetworks]. *)
Definition entries (t : WiFiBase) : list network :=
  omap id (take (Z.to_nat (_numKnownNetworks t)) (_knownNetworks t)).

(** The fields behind the configuration functions, and those of the
    registry. *)
Definition settings (t : WiFiBase) :=
  (_background t, _APSsid t, _APPasswd t, _running t,
   _accessPointEnabled t, _accessPointActive t, _connectionTimeoutMs t).

Definition registry (t : WiFiBase) :=
  (_numKnownNetworks t, _allocatedKnownNetworks t, _knownNetworks t).

(** ** The constants of the header

    WiFiBase.h is not part of the sources this development follows; the
    three constants it defines are the fields of a class, so that every
    statement below holds for whatever values the header gives them. *)
Class WiFiBase_h := {
  MAX_KNOWN_NETWORKS : Z;
  INDEX_DISCONNECTED : Z;
  DEFAULT_CONNECT_TIMEOUT : Z
}.

(** ** Configuration functions and the registry *)

Section Registry.
Context {header : WiFiBase_h}.

Definition configBackground (t : WiFiBase) (background : bool)
  : bool * WiFiBase :=
  if _running t then (false, t)
  else (true, set_background background t).

Definition configureAccessPoint (t : WiFiBase) (ssid' passwd' : string)
  : bool * WiFiBase :=
  if _accessPointActive t then (false, t)
  else (true, set_accessPointEnabled true
                (set_AP (Some ssid') (Some passwd') t)).

Definition _shutdownAccessPoint (t : WiFiBase) : bool * WiFiBase :=
  (false, t).

Definition disableAccessPoint (t : WiFiBase) : bool * WiFiBase :=
  if _accessPointActive t then
    let (down, t1) := _shutdownAccessPoint t in
    if negb down then (false, t1)
    else (true, set_accessPointEnabled false t1)
  else (true, set_accessPointEnabled false t).

(** The [for] loop of [lookupKnownNetwork]: [todo] iterations remain, the
    loop variable is [i].  [strcmp(..) == 0] is string equality.  A slot that
    was never written, which the loop does not meet in a well-formed
    registry, matches no name. *)
Fixpoint lookup_scan (a : list (option network)) (name : string)
    (todo : nat) (i : Z) : Z :=
  match todo with
  | O => INDEX_DISCONNECTED
  | S todo' =>
      match a !! Z.to_nat i with
      | Some (Some e) =>
          if String.eqb (ssid e) name then i
          else lookup_scan a name todo' (i + 1)
      | _ => lookup_scan a name todo' (i + 1)
      end
  end.

Definition lookupKnownNetwork (t : WiFiBase) (name : string) : Z :=
  lookup_scan (_knownNetworks t) name (Z.to_nat (_numKnownNetworks t)) 0.

Definition hasKnownNetwork (t : WiFiBase) (name : string) : bool :=
  negb (lookupKnownNetwork t name =? INDEX_DISCONNECTED).

Definition numKnownNetworks (t : WiFiBase) : Z := _numKnownNetworks t.

(** The tail of [addKnownNetwork]: write slot [_numKnownNetworks] and count
    it. *)
Definition store_network (t : WiFiBase) (name secret : string) : WiFiBase :=
  let n := _numKnownNetworks t in
  set_numKnownNetworks (n + 1)
    (set_knownNetworks
       (<[Z.to_nat n := Some (Network name secret)]> (_knownNetworks t)) t).

Definition addKnownNetwork (t : WiFiBase) (name secret : string)
  : bool * WiFiBase :=
  if _allocatedKnownNetworks t =? 0 then
    let t1 := set_knownNetworks (malloc 2)
                (set_numKnownNetworks 0 (set_allocatedKnownNetworks 2 t)) in
    (true, store_network t1 name secret)
  else if hasKnownNetwork t name then (true, t)
  else if _numKnownNetworks t =? _allocatedKnownNetworks t then
    if MAX_KNOWN_NETWORKS <=? _numKnownNetworks t then (false, t)
    else
      (* uint16_t newAlloc = _allocatedKnownNetworks * 2 *)
      let newAlloc := (_allocatedKnownNetworks t * 2) mod 65536 in
      let newNetworks :=
        memcpy (malloc newAlloc) (_knownNetworks t) (_numKnownNetworks t) in
      let t1 := set_allocatedKnownNetworks newAlloc
                  (set_knownNetworks newNetworks t) in
      (true, store_network t1 name secret)
  else (true, store_network t name secret).

(** [unsigned long ms] *)
Definition setConnectTimeoutMs (t : WiFiBase) (ms : Z) : bool * WiFiBase :=
  (true, set_connectionTimeoutMs (ms mod 2 ^ 32) t).

Definition connected (t : WiFiBase) : bool :=
  negb (_connectedIndex t =? INDEX_DISCONNECTED).

(** [_setConnected(uint8_t index)]: the argument is converted to 8 bits. *)
Definition _setConnected (t : WiFiBase) (index : Z) : WiFiBase :=
  set_connectedIndex (index mod 256) t.

Definition _setDisconnected (t : WiFiBase) : WiFiBase :=
  set_connectedIndex INDEX_DISCONNECTED t.

(** The constructor.  [stored] is whether [WiFi.SSID()] reports a previously
    connected network. *)
Definition new_WiFiBase (useStored stored : bool) : WiFiBase :=
  let t := {| _background := true; _APSsid := None; _APPasswd := None;
              _running := false; _accessPointEnabled := false;
              _accessPointActive := false;
              _numKnownNetworks := 0; _allocatedKnownNetworks := 0;
              _knownNetworks := [];
              _connectionTimeoutMs := DEFAULT_CONNECT_TIMEOUT;
              _connectedIndex := INDEX_DISCONNECTED |} in
  if useStored && stored then snd (addKnownNetwork t "" "") else t.

End Registry.

(** ** The external collaborators *)

(** [wl_status_t] of the Arduino WiFi library. *)
Inductive wl_status :=
| WL_NO_SHIELD
| WL_IDLE_STATUS
| WL_NO_SSID_AVAIL
| WL_SCAN_COMPLETED
| WL_CONNECTED
| WL_CONNECT_FAILED
| WL_CONNECTION_LOST
| WL_DISCONNECTED.

Definition is_WL_CONNECTED (s : wl_status) : bool :=
  match s with WL_CONNECTED => true | _ => false end.

Definition is_WL_CONNECT_FAILED (s : wl_status) : bool :=
  match s with WL_CONNECT_FAILED => true | _ => false end.

(** What the orchestrator asks of its collaborators. *)
Inductive call :=
| c_status                                   (* WiFi.status() *)
| c_millis                                   (* millis() *)
| c_begin_stored                             (* WiFi.begin() *)
| c_begin (name secret : string)             (* WiFi.begin(ssid, passwd) *)
| c_disconnect                               (* esp_wifi_disconnect() *)
| c_delay (ms : Z)                           (* delay(ms) *)
| c_portal (apSsid apPasswd : option string). (* startConfigPortal(..) *)

(** The world outside the object: the clock in milliseconds and the calls
    made so far, the most recent first. *)
Record World := { now : Z; history : list call }.

(** The collaborators answer as a function of everything asked of them so far
    and of the time: [radio] is the link status, [portal] the credential the
    config portal learned ([None] when it fails), [latency] the milliseconds
    a call takes before it returns. *)
Class Collaborators := {
  radio : list call -> Z -> wl_status;
  portal : list call -> Z -> option (string * string);
  latency : list call -> Z -> call -> Z
}.

(** A call that returns at once: it is recorded and the clock stands
    still. *)
Definition log (c : call) (w : World) : World :=
  {| now := now w; history := c :: history w |}.

Section Orchestrator.
Context {header : WiFiBase_h} {env : Collaborators}.

(** A call is made: it is recorded, and the clock has moved on by the time
    the call took when it returns. *)
Definition tick (c : call) (w : World) : World :=
  {| now := now w + latency (history w) (now w) c;
     history := c :: history w |}.

Definition WiFi_status (w : World) : wl_status * World :=
  (radio (history w) (now w), tick c_status w).

(** [unsigned long millis()] *)
Definition millis (w : World) : Z * World :=
  (now w mod 2 ^ 32, tick c_millis w).

Definition delay (ms : Z) (w : World) : World := tick (c_delay ms) w.

Definition WiFi_begin_stored (w : World) : World := tick c_begin_stored w.

Definition WiFi_begin (name secret : string) (w : World) : World :=
  tick (c_begin name secret) w.

Definition esp_wifi_disconnect (w : World) : World := tick c_disconnect w.

(** [wifiManager.startConfigPortal(..)]; on success the answer is the pair
    the source then reads with [getSSID()] and [getPassword()]. *)
Definition startConfigPortal (apSsid apPasswd : option string) (w : World)
  : option (string * string) * World :=
  (portal (history w) (now w), tick (c_portal apSsid apPasswd) w).

(** ** Operational functions *)

(** The [while (true)] of [_connectWait]; [fuel] bounds the number of polls,
    [None] is a loop that has not returned within it.  The subtraction is on
    [unsigned long]. *)
Fixpoint connectWait_loop (fuel : nat) (timeout start : Z) (w : World)
  : option (bool * World) :=
  match fuel with
  | O => None
  | S fuel' =>
      let (status, w1) := WiFi_status w in
      if is_WL_CONNECTED status then Some (true, w1)
      else if is_WL_CONNECT_FAILED status then Some (false, w1)
      else
        let (t, w2) := millis w1 in
        if timeout <? (t - start) mod 2 ^ 32 then
          Some (false, esp_wifi_disconnect w2)
        else connectWait_loop fuel' timeout start (delay 100 w2)
  end.

Definition _connectWait (fuel : nat) (t : WiFiBase) (w : World)
  : option (bool * World) :=
  let (start, w1) := millis w in
  connectWait_loop fuel (_connectionTimeoutMs t) start w1.

(** [s[0] == '\0'] on a C string. *)
Definition is_empty_cstr (s : string) : bool :=
  match s with EmptyString => true | String _ _ => false end.

(** The end of [_connectToNetwork], reached when nothing connected. *)
Definition connect_failed (t : WiFiBase) (w : World)
  : option (bool * WiFiBase * World) :=
  Some (false, _setDisconnected t, w).

(** The [for (; index < _numKnownNetworks; index++)] of [_connectToNetwork]
    with [todo] iterations left.  Reading a slot that was never written has no
    defined result ([None]). *)
Fixpoint connect_loop (fuel : nat) (todo : nat) (index : Z) (t : WiFiBase)
    (w : World) : option (bool * WiFiBase * World) :=
  match todo with
  | O => connect_failed t w
  | S todo' =>
      match _knownNetworks t !! Z.to_nat index with
      | Some (Some e) =>
          let w1 := WiFi_begin (ssid e) (passwd e) w in
          match _connectWait fuel t w1 with
          | None => None
          | Some (true, w2) => Some (true, _setConnected t index, w2)
          | Some (false, w2) => connect_loop fuel todo' (index + 1) t w2
          end
      | _ => None
      end
  end.

Definition _connectToNetwork (fuel : nat) (t : WiFiBase) (w : World)
  : option (bool * WiFiBase * World) :=
  let index := 0 in
  let (status, w0) := WiFi_status w in
  if is_WL_CONNECTED status then Some (true, t, w0)
  else if negb (_numKnownNetworks t =? 0) then
    match _knownNetworks t !! Z.to_nat index with
    | Some (Some e) =>
        if is_empty_cstr (ssid e) then
          let w1 := WiFi_begin_stored w0 in
          match _connectWait fuel t w1 with
          | None => None
          | Some (true, w2) => Some (true, _setConnected t index, w2)
          | Some (false, w2) =>
              let index := index + 1 in
              connect_loop fuel (Z.to_nat (_numKnownNetworks t - index))
                index t w2
          end
        else
          connect_loop fuel (Z.to_nat (_numKnownNetworks t - index))
            index t w0
    | _ => None
    end
  else connect_failed t w0.

Definition _startupAccessPoint (t : WiFiBase) (w : World)
  : bool * WiFiBase * World :=
  let (learned, w1) := startConfigPortal (_APSsid t) (_APPasswd t) w in
  match learned with
  | None => (false, t, w1)
  | Some (name, secret) =>
      let index := lookupKnownNetwork t name in
      if index =? INDEX_DISCONNECTED then
        let (_, t1) := addKnownNetwork t name secret in
        let index := _numKnownNetworks t1 - 1 in
        (true, _setConnected t1 index, w1)
      else (true, _setConnected t index, w1)
  end.

Definition startup (fuel : nat) (t : WiFiBase) (w : World)
  : option (bool * WiFiBase * World) :=
  match _connectToNetwork fuel t w with
  | None => None
  | Some (true, t1, w1) => Some (true, t1, w1)
  | Some (false, t1, w1) =>
      if _accessPointEnabled t1 then
        let '(up, t2, w2) := _startupAccessPoint t1 w1 in
        if up then Some (true, t2, w2) else Some (false, t2, w2)
      else Some (false, t1, w1)
  end.

End Orchestrator.

(** ** Vocabulary of the statements *)

Section Vocabulary.
Context {header : WiFiBase_h}.

(** The names in the registry, in storage order. *)
Definition names (t : WiFiBase) : list string := ssid <$> entries t.

(** Index of the first credential called [name]. *)
Fixpoint position (name : string) (es : list network) : option nat :=
  match es with
  | [] => None
  | e :: es' =>
      if String.eqb (ssid e) name then Some O
      else S <$> position name es'
  end.

(** The capacity the storage can reach: it starts at 2 and doubles while it
    is below [MAX_KNOWN_NETWORKS]. *)
Definition capacity_ceiling : Z :=
  Z.max 2 (2 ^ Z.log2_up MAX_KNOWN_NETWORKS).

(** [INDEX_DISCONNECTED] is a reserved value: no position of the array. *)
Definition sentinel_ok : Prop :=
  INDEX_DISCONNECTED < 0 \/ capacity_ceiling <= INDEX_DISCONNECTED.

(** Doubling the allocation stays within [uint16_t]. *)
Definition growth_ok : Prop := MAX_KNOWN_NETWORKS <= 32768.

Definition header_ok : Prop := growth_ok /\ sentinel_ok.


(** The shape of the registry in every state the public functions produce:
    the first [_numKnownNetworks] slots are written, the rest of the
    allocation is not; the allocation is 0 or a power of two from 2 up to the
    ceiling; no name is stored twice. *)
Record registry_ok (t : WiFiBase) : Prop := {
  ok_slots :
    _knownNetworks t =
    (Some <$> entries t) ++
    replicate (Z.to_nat (_allocatedKnownNetworks t - _numKnownNetworks t))
      None;
  ok_count : Z.of_nat (length (entries t)) = _numKnownNetworks t;
  ok_bound : _numKnownNetworks t <= _allocatedKnownNetworks t;
  ok_capacity :
    _allocatedKnownNetworks t = 0 \/
    exists k, 1 <= k /\ _allocatedKnownNetworks t = 2 ^ k /\
              _allocatedKnownNetworks t <= capacity_ceiling;
  ok_distinct : NoDup (names t)
}.

(** The state in which [addKnownNetwork] refuses a new name. *)
Definition registry_full (t : WiFiBase) : Prop :=
  _allocatedKnownNetworks t <> 0 /\
  _numKnownNetworks t = _allocatedKnownNetworks t /\
  MAX_KNOWN_NETWORKS <= _numKnownNetworks t.

(** A run of [addKnownNetwork] calls: the results and the final state. *)
Fixpoint add_all (t : WiFiBase) (cs : list (string * string))
  : list bool * WiFiBase :=
  match cs with
  | [] => ([], t)
  | (name, secret) :: cs' =>
      let (r, t1) := addKnownNetwork t name secret in
      let (rs, t2) := add_all t1 cs' in
      (r :: rs, t2)
  end.

(** Following the spec's words: the distinct names of a run of calls, each at
    the place of its first call (a repeated name is a no-op). *)
Definition note_name (seen : list string) (name : string) : list string :=
  if existsb (String.eqb name) seen then seen else seen ++ [name].

Definition first_occurrences (seed calls : list string) : list string :=
  fold_left note_name calls seed.

(** The states of an object: what the constructor and the public functions
    produce, whatever the collaborators answer. *)
Inductive reachable : WiFiBase -> Prop :=
| reach_new useStored stored :
    reachable (new_WiFiBase useStored stored)
| reach_configBackground t b :
    reachable t -> reachable (snd (configBackground t b))
| reach_configureAccessPoint t s p :
    reachable t -> reachable (snd (configureAccessPoint t s p))
| reach_disableAccessPoint t :
    reachable t -> reachable (snd (disableAccessPoint t))
| reach_addKnownNetwork t name secret :
    reachable t -> reachable (snd (addKnownNetwork t name secret))
| reach_setConnectTimeoutMs t ms :
    reachable t -> reachable (snd (setConnectTimeoutMs t ms))
| reach_startup (env : Collaborators) fuel t w r t' w' :
    reachable t -> startup fuel t w = Some (r, t', w') -> reachable t'.

(** The states the public functions lead to from the state [t0]. *)
Inductive reachable_from (t0 : WiFiBase) : WiFiBase -> Prop :=
| from_here : reachable_from t0 t0
| from_configBackground t b :
    reachable_from t0 t -> reachable_from t0 (snd (configBackground t b))
| from_configureAccessPoint t s p :
    reachable_from t0 t ->
    reachable_from t0 (snd (configureAccessPoint t s p))
| from_disableAccessPoint t :
    reachable_from t0 t -> reachable_from t0 (snd (disableAccessPoint t))
| from_addKnownNetwork t name secret :
    reachable_from t0 t ->
    reachable_from t0 (snd (addKnownNetwork t name secret))
| from_setConnectTimeoutMs t ms :
    reachable_from t0 t ->
    reachable_from t0 (snd (setConnectTimeoutMs t ms))
| from_startup (env : Collaborators) fuel t w r t' w' :
    reachable_from t0 t -> startup fuel t w = Some (r, t', w') ->
    reachable_from t0 t'.

End Vocabulary.

(** ** Headers and collaborators used in the examples *)

Definition header_max3 : WiFiBase_h :=
  {| MAX_KNOWN_NETWORKS := 3; INDEX_DISCONNECTED := -1;
     DEFAULT_CONNECT_TIMEOUT := 10000 |}.

Definition header_max2 : WiFiBase_h :=
  {| MAX_KNOWN_NETWORKS := 2; INDEX_DISCONNECTED := -1;
     DEFAULT_CONNECT_TIMEOUT := 10000 |}.

Definition header_max8 : WiFiBase_h :=
  {| MAX_KNOWN_NETWORKS := 8; INDEX_DISCONNECTED := 255;
     DEFAULT_CONNECT_TIMEOUT := 10000 |}.

(** The world at power-up. *)
Definition boot : World := {| now := 0; history := [] |}.

(** The connect request the radio is working on. *)
Fixpoint last_begin (h : list call) : option call :=
  match h with
  | [] => None
  | c_begin_stored :: _ => Some c_begin_stored
  | c_begin name secret :: _ => Some (c_begin name secret)
  | _ :: h' => last_begin h'
  end.

(** A clock on which only sleeping takes time, and one on which asking the
    link status takes a millisecond as well. *)
Definition sleep_only (h : list call) (at_ms : Z) (c : call) : Z :=
  match c with
  | c_delay ms => ms
  | _ => 0
  end.

Definition slow_status (h : list call) (at_ms : Z) (c : call) : Z :=
  match c with
  | c_delay ms => ms
  | c_status => 1
  | _ => 0
  end.

(** The answers of a connect-attempt simulation: the radio is idle until
    asked to connect, reports the link up for the requests [accepts] admits,
    leaves [pending] requests unresolved, and reports failure for the
    others. *)
Definition simulated_radio (accepts pending : call -> bool) (h : list call)
    (at_ms : Z) : wl_status :=
  match last_begin h with
  | None => WL_IDLE_STATUS
  | Some c =>
      if accepts c then WL_CONNECTED
      else if pending c then WL_DISCONNECTED
      else WL_CONNECT_FAILED
  end.

(** A connect-attempt simulation; the portal always answers [learned]. *)
Definition simulation (accepts pending : call -> bool)
    (learned : option (string * string)) : Collaborators :=
  {| radio := simulated_radio accepts pending;
     portal := fun _ _ => learned;
     latency := sleep_only |}.

Definition begins_with (name : string) (c : call) : bool :=
  match c with
  | c_begin n _ => String.eqb n name
  | _ => false
  end.

Definition nothing (c : call) : bool := false.

(** A radio whose link is already up. *)
Definition link_up : Collaborators :=
  {| radio := fun _ _ => WL_CONNECTED; portal := fun _ _ => None;
     latency := sleep_only |}.

(** ** Vocabulary of the statements on the orchestrator *)

Section Polls.
Context {header : WiFiBase_h} {env : Collaborators}.

(** One unresolved round of the wait loop: the status is asked, the clock is
    read, the loop sleeps. *)
Definition next_poll (w : World) : World :=
  delay 100 (snd (millis (snd (WiFi_status w)))).

(** The world in which the wait loop asks the status for the [k]-th time
    (from 0), when no earlier round returned. *)
Fixpoint poll_world (w : World) (k : nat) : World :=
  match k with
  | O => w
  | S k' => next_poll (poll_world w k')
  end.

Definition poll_status (w : World) (k : nat) : wl_status :=
  fst (WiFi_status (poll_world w k)).

Definition resolved (s : wl_status) : bool :=
  is_WL_CONNECTED s || is_WL_CONNECT_FAILED s.

(** What [millis() - start] evaluates to in a round that asks the status in
    the world [u], and in round [k] of the wait entered in the world [w]; the
    subtraction is on [unsigned long]. *)
Definition elapsed_at (start : Z) (u : World) : Z :=
  (fst (millis (snd (WiFi_status u))) - start) mod 2 ^ 32.

Definition elapsed (w : World) (k : nat) : Z :=
  elapsed_at (fst (millis w)) (poll_world (snd (millis w)) k).

(** The clock when round [k] of the wait entered in [w] reads it. *)
Definition read_at (w : World) (k : nat) : Z :=
  now (snd (WiFi_status (poll_world (snd (millis w)) k))).

(** The calls [startup] makes outside the config portal. *)
Definition timed (c : call) : bool :=
  match c with
  | c_delay ms => ms =? 100
  | c_portal _ _ => false
  | _ => true
  end.

(** The clock never runs backwards, the calls of [startup] outside the config
    portal return within [B] milliseconds, and a sleep of 100 ms takes at
    least that long. *)
Definition clock_ok (B : Z) : Prop :=
  forall (h : list call) (at_ms : Z) (c : call),
    timed c = true ->
    0 <= latency h at_ms c <= B /\
    (c = c_delay 100 -> 100 <= latency h at_ms c).

(** Rounds that suffice for a wait with this timeout. *)
Definition poll_budget (t : WiFiBase) : nat :=
  Z.to_nat (_connectionTimeoutMs t / 100) + 2.

(** What the wait loop returns in the round in which it stops. *)
Definition wait_outcome (w : World) (n : nat) : bool * World :=
  let u := snd (WiFi_status (poll_world w n)) in
  if is_WL_CONNECTED (poll_status w n) then (true, u)
  else if is_WL_CONNECT_FAILED (poll_status w n) then (false, u)
  else (false, esp_wifi_disconnect (snd (millis u))).

(** The connect requests in a history, the most recent first. *)
Fixpoint begins (h : list call) : list call :=
  match h with
  | [] => []
  | c_begin_stored :: h' => c_begin_stored :: begins h'
  | c_begin name secret :: h' => c_begin name secret :: begins h'
  | _ :: h' => begins h'
  end.

(** The config-portal starts in a history, the most recent first. *)
Fixpoint portals (h : list call) : list call :=
  match h with
  | [] => []
  | c_portal apSsid apPasswd :: h' => c_portal apSsid apPasswd :: portals h'
  | _ :: h' => portals h'
  end.

(** The connect requests since [w], in the order they were made. *)
Definition attempted (w w' : World) : list call :=
  rev (take (length (begins (history w')) - length (begins (history w)))
         (begins (history w'))).

Definition literal (e : network) : call := c_begin (ssid e) (passwd e).

(** Following the spec's words: the request made for the credential at
    position [i].  Position 0 with the empty name stands for the credential
    the radio has stored. *)
Definition attempt_call (i : nat) (e : network) : call :=
  if (i =? 0)%nat && is_empty_cstr (ssid e) then c_begin_stored
  else literal e.

Fixpoint attempt_calls (i : nat) (es : list network) : list call :=
  match es with
  | [] => []
  | e :: es' => attempt_call i e :: attempt_calls (S i) es'
  end.

(** One connection attempt: the request, then the wait. *)
Definition attempt (fuel : nat) (t : WiFiBase) (i : nat) (e : network)
    (w : World) : option (bool * World) :=
  _connectWait fuel t (tick (attempt_call i e) w).

(** Following the spec's words: the credentials [es], which sit at positions
    [i], [i + 1], ..., are attempted in order; the first attempt that succeeds
    ends the iteration with its position, and when none does the result is
    [None]. *)
Fixpoint attempts_in_order (fuel : nat) (t : WiFiBase) (i : nat)
    (es : list network) (w : World) : option (option nat * World) :=
  match es with
  | [] => Some (None, w)
  | e :: es' =>
      match attempt fuel t i e w with
      | None => None
      | Some (true, w') => Some (Some i, w')
      | Some (false, w') => attempts_in_order fuel t (S i) es' w'
      end
  end.

(** What [_connectToNetwork] makes of the outcome of the iteration. *)
Definition connect_result (t : WiFiBase)
    (o : option (option nat * World)) : option (bool * WiFiBase * World) :=
  match o with
  | None => None
  | Some (Some k, w') => Some (true, _setConnected t (Z.of_nat k), w')
  | Some (None, w') => Some (false, _setDisconnected t, w')
  end.

End Polls.

(** The registry a fresh object holds after a run of [addKnownNetwork]. *)
Definition registry_of {header : WiFiBase_h} (cs : list (string * string))
  : WiFiBase :=
  snd (add_all (new_WiFiBase false false) cs).

(** The objects of the examples. *)
Definition abc_calls : list (string * string) :=
  [("A", "pwA"); ("B", "pwB"); ("C", "pwC")].

Definition abcd_calls : list (string * string) :=
  abc_calls ++ [("D", "pwD")].

Definition repeated_calls : list (string * string) :=
  [("a", "1"); ("b", "2"); ("a", "x"); ("c", "3"); ("d", "4"); ("e", "5")].

(** Only B lets the device in; nothing else answers. *)
Definition only_B : Collaborators :=
  simulation (begins_with "B") nothing None.

(** Every request is refused; the portal learns a new credential. *)
Definition portal_learns : Collaborators :=
  simulation nothing nothing (Some ("NewNet", "secret1")).

(** Every request is refused and the portal fails. *)
Definition all_refused : Collaborators :=
  simulation nothing nothing None.

(** The request for A never resolves. *)
Definition A_hangs : Collaborators :=
  simulation nothing (begins_with "A") None.

(** The world [only_B] leaves after [startup] on the registry A, B, C. *)
Definition abc_world : World :=
  Eval vm_compute in
    match @startup header_max8 only_B 1 (@registry_of header_max8 abc_calls)
            boot with
    | Some (_, _, w') => w'
    | None => boot
    end.

(** The registry seeded with the stored-credential entry, then B; the world
    after the request for the stored credential was refused, and the world
    after B was refused too. *)
Definition stored_and_B : WiFiBase :=
  Eval vm_compute in
    snd (@add_all header_max8 (@new_WiFiBase header_max8 true true)
           [("B", "pwB")]).


Definition all_refused_world : World :=
  Eval vm_compute in
    match @_connectToNetwork header_max8 all_refused 1 stored_and_B boot with
    | Some (_, _, w') => w'
    | None => boot
    end.

(** A fresh object with a timeout of 500 ms, and the world in which A has
    just been requested. *)
Definition timeout_500 : WiFiBase :=
  snd (setConnectTimeoutMs (@new_WiFiBase header_max8 false false) 500).

Definition A_requested : World := log (c_begin "A" "pwA") boot.

(** The request for A never resolves, B lets the device in, and asking the
    link status takes a millisecond. *)
Definition A_hangs_B_accepts : Collaborators :=
  {| radio := simulated_radio (begins_with "B") (begins_with "A");
     portal := fun _ _ => None;
     latency := slow_status |}.

(** The registry A, B, C with a timeout of 500 ms; the worlds of its
    [startup] with [A_hangs_B_accepts]: A has just been requested, the wait
    for A has given up, B has connected. *)
Definition abc_500 : WiFiBase :=
  snd (setConnectTimeoutMs (@registry_of header_max8 abc_calls) 500).

Definition A_asked : World :=
  Eval vm_compute in
    @tick A_hangs_B_accepts (c_begin "A" "pwA")
      (snd (@WiFi_status A_hangs_B_accepts boot)).

Definition A_given_up : World :=
  Eval vm_compute in
    match @_connectWait A_hangs_B_accepts 7 abc_500 A_asked with
    | Some (_, w') => w'
    | None => boot
    end.

Definition B_connected : World :=
  Eval vm_compute in
    match @startup header_max8 A_hangs_B_accepts 7 abc_500 boot with
    | Some (_, _, w') => w'
    | None => boot
    end.

(** The object seeded with the stored credential after B was added, the
    timeout set, a [startup] that failed, and the access point configured;
    the world after its next [startup]. *)
Definition stored_and_B_later : WiFiBase :=
  snd (configureAccessPoint
         (@_setDisconnected header_max8
            (snd (setConnectTimeoutMs stored_and_B 500)))
         "SetupAP" "appw").

Definition stored_and_B_later_world : World :=
  Eval vm_compute in
    match @startup header_max8 all_refused 1 stored_and_B_later boot with
    | Some (_, _, w') => w'
    | None => boot
    end.

(** Tactics for the examples: a name is not in a concrete list; the names
    of a concrete list are distinct. *)
Ltac not_listed :=
  let H := fresh in
  intros H; apply list_elem_of_In in H; vm_compute in H;
  intuition discriminate.


(** * Properties

    ** The registry *)

Section RegistryFacts.
Context {header : WiFiBase_h}.

Lemma omap_id_Some (es : list network) : omap id (Some <$> es) = es.
Proof. induction es as [|e es IH]; [done | cbn; by f_equal]. Qed.

Lemma entries_shape t (es : list network) rest :
  _knownNetworks t = (Some <$> es) ++ rest ->
  Z.of_nat (length es) = _numKnownNetworks t ->
  entries t = es.
Proof.
  intros Hs Hn. unfold entries. rewrite Hs, <- Hn, Nat2Z.id.
  rewrite take_app_length'; [apply omap_id_Some | by rewrite length_fmap].
Qed.

Lemma position_Some name es i :
  position name es = Some i ->
  (i < length es)%nat /\ exists e, es !! i = Some e /\ ssid e = name.
Proof.
  revert i. induction es as [|e es IH]; intros i; simpl; [done|].
  destruct (String.eqb_spec (ssid e) name) as [He|He].
  - intros [= <-]. split; [lia | eauto].
  - destruct (position name es) as [j|]; simpl; [|done].
    intros [= <-]. destruct (IH j eq_refl) as [Hj He']. split; [lia | done].
Qed.

Lemma position_None name es :
  position name es = None <-> name ∉ ssid <$> es.
Proof.
  induction es as [|e es IH]; simpl.
  - split; [intros _; apply not_elem_of_nil | done].
  - rewrite not_elem_of_cons.
    destruct (String.eqb_spec (ssid e) name) as [He|He].
    + split; [done | intros [Hne _]; congruence].
    + destruct (position name es); simpl.
      * split; [done | intros [_ Hn]; by apply IH in Hn].
      * split; [intros _; split; [congruence | by apply IH] | done].
Qed.

Lemma position_app_r name es e :
  position name es = None ->
  position name (es ++ [e]) =
  if String.eqb (ssid e) name then Some (length es) else None.
Proof.
  induction es as [|e0 es IH]; simpl; [by destruct (String.eqb _ _)|].
  destruct (String.eqb (ssid e0) name); [done|].
  destruct (position name es); simpl; [done|]. intros _.
  rewrite IH by done. by destruct (String.eqb (ssid e) name).
Qed.

Lemma position_app_l name es es' i :
  position name es = Some i -> position name (es ++ es') = Some i.
Proof.
  revert i. induction es as [|e0 es IH]; intros i; simpl; [done|].
  destruct (String.eqb (ssid e0) name); [done|].
  destruct (position name es) as [j|]; simpl; [|done].
  intros [= <-]. by rewrite (IH j eq_refl).
Qed.

Lemma lookup_scan_spec (pre es : list network) rest name :
  lookup_scan ((Some <$> pre) ++ (Some <$> es) ++ rest) name (length es)
    (Z.of_nat (length pre)) =
  match position name es with
  | Some i => Z.of_nat (length pre + i)
  | None => INDEX_DISCONNECTED
  end.
Proof.
  revert pre. induction es as [|e es IH]; intros pre; [done|].
  cbn [length lookup_scan position fmap list_fmap].
  rewrite Nat2Z.id, lookup_app_r by (rewrite length_fmap; lia).
  rewrite length_fmap, Nat.sub_diag. cbn [app lookup list_lookup].
  simpl.
  destruct (String.eqb (ssid e) name); [f_equal; lia|].
  specialize (IH (pre ++ [e])).
  rewrite fmap_app, <- app_assoc, length_app in IH. simpl in IH.
  replace (Z.of_nat (length pre) + 1) with (Z.of_nat (length pre + 1)) by lia.
  rewrite IH. destruct (position name es); simpl; [f_equal; lia | done].
Qed.

Lemma lookupKnownNetwork_spec t name :
  registry_ok t ->
  lookupKnownNetwork t name =
  match position name (entries t) with
  | Some i => Z.of_nat i
  | None => INDEX_DISCONNECTED
  end.
Proof.
  intros Hok. unfold lookupKnownNetwork.
  rewrite (ok_slots _ Hok), <- (ok_count _ Hok), Nat2Z.id.
  apply (lookup_scan_spec [] (entries t)).
Qed.


Lemma store_network_shape t (es : list network) k name secret :
  _knownNetworks t = (Some <$> es) ++ replicate (S k) None ->
  Z.of_nat (length es) = _numKnownNetworks t ->
  _knownNetworks (store_network t name secret) =
    (Some <$> (es ++ [Network name secret])) ++ replicate k None /\
  entries (store_network t name secret) = es ++ [Network name secret].
Proof.
  intros Hs Hn.
  assert (Hk : _knownNetworks (store_network t name secret) =
    (Some <$> (es ++ [Network name secret])) ++ replicate k None).
  { unfold store_network; simpl. rewrite Hs, <- Hn, Nat2Z.id.
    replace (length es) with (length (Some <$> es) + 0)%nat
      by (rewrite length_fmap; lia).
    rewrite insert_app_r, fmap_app, <- app_assoc. done. }
  split; [done|].
  eapply entries_shape; [exact Hk|].
  unfold store_network; simpl. rewrite length_app; simpl. lia.
Qed.

Lemma registry_ok_count_nonneg t : registry_ok t -> 0 <= _numKnownNetworks t.
Proof. intros Hok. rewrite <- (ok_count _ Hok). lia. Qed.

Lemma ceiling_ge_2 : 2 <= capacity_ceiling.
Proof. unfold capacity_ceiling. lia. Qed.

Lemma ceiling_double k :
  1 <= k -> 2 ^ k < MAX_KNOWN_NETWORKS -> 2 ^ (k + 1) <= capacity_ceiling.
Proof.
  intros Hk Hlt. unfold capacity_ceiling.
  assert (0 < MAX_KNOWN_NETWORKS) by (pose proof (Z.pow_pos_nonneg 2 k); lia).
  apply Z.log2_up_lt_pow2 in Hlt; [|done].
  pose proof (Z.pow_le_mono_r 2 (k + 1) (Z.log2_up MAX_KNOWN_NETWORKS)).
  lia.
Qed.

Lemma max_le_ceiling : MAX_KNOWN_NETWORKS <= capacity_ceiling.
Proof.
  unfold capacity_ceiling.
  destruct (Z.le_gt_cases MAX_KNOWN_NETWORKS 1) as [Hle|Hgt]; [lia|].
  pose proof (Z.log2_up_spec MAX_KNOWN_NETWORKS Hgt). lia.
Qed.

(** A capacity below the ceiling is below [MAX_KNOWN_NETWORKS]. *)
Lemma below_ceiling k :
  1 <= k -> 2 ^ k < capacity_ceiling -> 2 ^ k < MAX_KNOWN_NETWORKS.
Proof.
  intros Hk Hlt. unfold capacity_ceiling in Hlt.
  assert (2 <= 2 ^ k)
    by (change 2 with (2 ^ 1) at 1; apply Z.pow_le_mono_r; lia).
  assert (2 ^ k < 2 ^ Z.log2_up MAX_KNOWN_NETWORKS) as Hp by lia.
  apply Z.pow_lt_mono_r_iff in Hp; [|lia|apply Z.log2_up_nonneg].
  destruct (Z.le_gt_cases MAX_KNOWN_NETWORKS 0) as [Hle|Hgt].
  - rewrite Z.log2_up_nonpos in Hp by done. lia.
  - by apply Z.log2_up_lt_pow2.
Qed.


Lemma position_in_range t i :
  sentinel_ok -> registry_ok t -> (i < length (entries t))%nat ->
  Z.of_nat i <> INDEX_DISCONNECTED.
Proof.
  intros Hidx Hok Hi. unfold sentinel_ok in Hidx.
  pose proof (ok_count _ Hok). pose proof (ok_bound _ Hok).
  destruct (ok_capacity _ Hok) as [Hz | (k & _ & _ & Hc)]; lia.
Qed.

Lemma hasKnownNetwork_spec t name :
  sentinel_ok -> registry_ok t ->
  hasKnownNetwork t name = true <-> name ∈ names t.
Proof.
  intros Hh Hok. unfold hasKnownNetwork, names.
  rewrite lookupKnownNetwork_spec by done.
  destruct (position name (entries t)) as [i|] eqn:Hp.
  - apply position_Some in Hp as Hp'. destruct Hp' as [Hi (e & He & <-)].
    pose proof (position_in_range t i Hh Hok Hi).
    split; [intros _ | intros _; apply negb_true_iff, Z.eqb_neq; done].
    apply list_elem_of_fmap. exists e. split; [done|].
    by eapply list_elem_of_lookup_2.
  - rewrite Z.eqb_refl. apply position_None in Hp. split; [done | done].
Qed.

Lemma hasKnownNetwork_false t name :
  sentinel_ok -> registry_ok t ->
  hasKnownNetwork t name = false <-> name ∉ names t.
Proof.
  intros Hh Hok. rewrite <- hasKnownNetwork_spec by done.
  destruct (hasKnownNetwork t name); split; congruence.
Qed.

Lemma add_present t name secret :
  sentinel_ok -> registry_ok t -> name ∈ names t ->
  addKnownNetwork t name secret = (true, t).
Proof.
  intros Hh Hok Hin. unfold addKnownNetwork.
  assert (_allocatedKnownNetworks t <> 0) as Ha.
  { pose proof (ok_count _ Hok). pose proof (ok_bound _ Hok).
    unfold names in Hin. destruct (entries t); [by apply elem_of_nil in Hin|].
    simpl in *. lia. }
  apply Z.eqb_neq in Ha. rewrite Ha.
  apply (hasKnownNetwork_spec t name Hh Hok) in Hin. by rewrite Hin.
Qed.

Lemma add_full t name secret :
  sentinel_ok -> registry_ok t -> name ∉ names t -> registry_full t ->
  addKnownNetwork t name secret = (false, t).
Proof.
  intros Hh Hok Hin (Ha & Hn & Hm). unfold addKnownNetwork.
  apply Z.eqb_neq in Ha. rewrite Ha.
  apply (hasKnownNetwork_false t name Hh Hok) in Hin. rewrite Hin.
  apply Z.eqb_eq in Hn. rewrite Hn. apply Z.leb_le in Hm. by rewrite Hm.
Qed.


Lemma registry_ok_store t (es : list network) k name secret :
  _knownNetworks t = (Some <$> es) ++ replicate (S k) None ->
  Z.of_nat (length es) = _numKnownNetworks t ->
  _allocatedKnownNetworks t - _numKnownNetworks t = Z.of_nat (S k) ->
  (exists j, 1 <= j /\ _allocatedKnownNetworks t = 2 ^ j /\
             _allocatedKnownNetworks t <= capacity_ceiling) ->
  NoDup (ssid <$> es) -> name ∉ ssid <$> es ->
  registry_ok (store_network t name secret) /\
  entries (store_network t name secret) = es ++ [Network name secret].
Proof.
  intros Hs Hn Hk Hc Hd Hf.
  destruct (store_network_shape t es k name secret Hs Hn) as [Hs' He'].
  split; [|done]. split.
  - rewrite He', Hs'. do 2 f_equal. unfold store_network; simpl. lia.
  - rewrite He', length_app. unfold store_network; simpl. lia.
  - unfold store_network; simpl. lia.
  - right. exact Hc.
  - unfold names. rewrite He', fmap_app. apply NoDup_app.
    split; [done|]. split; [|apply NoDup_singleton].
    intros x Hx Hx'. apply list_elem_of_singleton in Hx'. simpl in Hx'.
    congruence.
Qed.

Lemma add_new t name secret :
  header_ok -> registry_ok t -> name ∉ names t -> ~ registry_full t ->
  fst (addKnownNetwork t name secret) = true /\
  registry_ok (snd (addKnownNetwork t name secret)) /\
  entries (snd (addKnownNetwork t name secret)) =
    entries t ++ [Network name secret].
Proof.
  intros Hh Hok Hnew Hroom. unfold addKnownNetwork.
  pose proof (ok_count _ Hok) as Hcnt. pose proof (ok_bound _ Hok) as Hbd.
  destruct (Z.eqb_spec (_allocatedKnownNetworks t) 0) as [Ha|Ha].
  { (* first allocation *)
    assert (entries t = []) as He.
    { destruct (entries t); [done | simpl in Hcnt; lia]. }
    simpl. split; [done|]. rewrite He.
    apply (registry_ok_store _ [] 1%nat); simpl; try done.
    - exists 1. pose proof ceiling_ge_2. lia.
    - apply NoDup_nil_2.
    - apply not_elem_of_nil. }
  apply (hasKnownNetwork_false t name (proj2 Hh) Hok) in Hnew as Hhas.
  rewrite Hhas.
  destruct (ok_capacity _ Hok) as [?|(j & Hj & Hpow & Hceil)]; [done|].
  assert (2 <= _allocatedKnownNetworks t) as Hge2.
  { rewrite Hpow. change 2 with (2 ^ 1) at 1. apply Z.pow_le_mono_r; lia. }
  destruct (Z.eqb_spec (_numKnownNetworks t) (_allocatedKnownNetworks t))
    as [Hnum|Hnum].
  - destruct (Z.leb_spec MAX_KNOWN_NETWORKS (_numKnownNetworks t)) as [Hm|Hm].
    { exfalso. apply Hroom. done. }
    (* grow by doubling *)
    assert (2 ^ (j + 1) <= capacity_ceiling) as Hdbl
      by (apply ceiling_double; lia).
    assert (Hpow2 : 2 ^ (j + 1) = 2 * 2 ^ j)
      by (rewrite Z.pow_add_r by lia; lia).
    destruct Hh as [Hmax _]. unfold growth_ok in Hmax.
    rewrite Z.mod_small by lia.
    simpl. split; [done|].
    apply (registry_ok_store _ (entries t)
             (Z.to_nat (_allocatedKnownNetworks t) - 1)); simpl.
    + unfold memcpy, malloc. rewrite (ok_slots _ Hok) at 1.
      rewrite Hnum, Z.sub_diag. simpl. rewrite app_nil_r.
      rewrite take_ge by (rewrite length_fmap; lia).
      rewrite drop_replicate. f_equal.
      replace (Z.to_nat (_allocatedKnownNetworks t * 2) -
               Z.to_nat (_allocatedKnownNetworks t))%nat
        with (S (Z.to_nat (_allocatedKnownNetworks t) - 1)) by lia.
      done.
    + done.
    + lia.
    + exists (j + 1). split; [lia|]. split; [lia|]. lia.
    + apply (ok_distinct _ Hok).
    + done.
  - simpl. split; [done|].
    apply (registry_ok_store _ (entries t)
             (Z.to_nat (_allocatedKnownNetworks t - _numKnownNetworks t) - 1)).
    + rewrite (ok_slots _ Hok) at 1. do 2 f_equal. lia.
    + done.
    + lia.
    + eauto.
    + apply (ok_distinct _ Hok).
    + done.
Qed.

End RegistryFacts.

Section RegistryRuns.
Context {header : WiFiBase_h}.

Lemma existsb_eqb_elem (n : string) (l : list string) :
  existsb (String.eqb n) l = true <-> n ∈ l.
Proof.
  rewrite existsb_exists, list_elem_of_In. split.
  - intros (x & Hx & He). apply String.eqb_eq in He. by subst.
  - intros Hn. exists n. split; [done | apply String.eqb_refl].
Qed.

Lemma registry_full_dec t : registry_full t \/ ~ registry_full t.
Proof. unfold registry_full. lia. Qed.

Lemma registry_ok_add t name secret :
  header_ok -> registry_ok t ->
  registry_ok (snd (addKnownNetwork t name secret)).
Proof.
  intros Hh Hok.
  destruct (hasKnownNetwork t name) eqn:Hhas.
  - apply (hasKnownNetwork_spec t name (proj2 Hh) Hok) in Hhas.
    by rewrite add_present by (done || apply Hh).
  - apply (hasKnownNetwork_false t name (proj2 Hh) Hok) in Hhas.
    destruct (registry_full_dec t) as [Hf|Hf].
    + by rewrite add_full by (done || apply Hh).
    + by apply add_new.
Qed.

Lemma new_WiFiBase_ok useStored stored :
  registry_ok (new_WiFiBase useStored stored).
Proof.
  unfold new_WiFiBase.
  destruct (useStored && stored).
  - unfold addKnownNetwork; simpl.
    apply (registry_ok_store _ [] 1%nat); simpl; try done.
    + exists 1. pose proof ceiling_ge_2. lia.
    + apply NoDup_nil_2.
    + apply not_elem_of_nil.
  - split; simpl; try done.
    + by left.
    + apply NoDup_nil_2.
Qed.


Lemma note_name_length seen n :
  (length seen <= length (note_name seen n))%nat.
Proof.
  unfold note_name. destruct (existsb _ _); [lia|].
  rewrite length_app. lia.
Qed.

Lemma first_occurrences_length seed l :
  (length seed <= length (first_occurrences seed l))%nat.
Proof.
  revert seed. induction l as [|n l IH]; intros seed; simpl; [lia|].
  etrans; [apply note_name_length | apply IH].
Qed.

Lemma first_occurrences_prefix seed l :
  seed `prefix_of` first_occurrences seed l.
Proof.
  revert seed. induction l as [|n l IH]; intros seed; simpl; [done|].
  etrans; [|apply IH]. unfold note_name.
  destruct (existsb _ _); [done | by apply prefix_app_r].
Qed.

Lemma add_all_app t cs1 cs2 :
  add_all t (cs1 ++ cs2) =
  (fst (add_all t cs1) ++ fst (add_all (snd (add_all t cs1)) cs2),
   snd (add_all (snd (add_all t cs1)) cs2)).
Proof.
  revert t. induction cs1 as [|[n s] cs1 IH]; intros t; simpl.
  - by destruct (add_all t cs2).
  - destruct (addKnownNetwork t n s) as [r t1]. rewrite IH.
    destruct (add_all t1 cs1) as [rs t2]; simpl.
    by destruct (add_all t2 cs2).
Qed.

(** Within the ceiling every call of a run succeeds and the registry holds
    the names of the run at their first occurrence. *)
Lemma add_all_within t cs :
  header_ok -> registry_ok t ->
  Z.of_nat (length (first_occurrences (names t) (fst <$> cs)))
    <= capacity_ceiling ->
  fst (add_all t cs) = replicate (length cs) true /\
  registry_ok (snd (add_all t cs)) /\
  names (snd (add_all t cs)) = first_occurrences (names t) (fst <$> cs) /\
  entries t `prefix_of` entries (snd (add_all t cs)).
Proof.
  intros Hh. revert t. induction cs as [|[n s] cs IH]; intros t Hok Hlen.
  { simpl. done. }
  cbn [add_all fmap list_fmap first_occurrences fold_left fst] in *.
  fold (first_occurrences (note_name (names t) n) (fst <$> cs)) in *.
  unfold note_name in *.
  destruct (existsb (String.eqb n) (names t)) eqn:Hex.
  - apply existsb_eqb_elem in Hex.
    rewrite add_present by (done || apply Hh).
    destruct (IH t Hok Hlen) as (Hr & Hok' & Hn & Hp).
    destruct (add_all t cs) as [rs t2]; simpl in *.
    by rewrite Hr.
  - assert (n ∉ names t) as Hnew.
    { intros Hin. apply existsb_eqb_elem in Hin. congruence. }
    assert (~ registry_full t) as Hroom.
    { intros (Ha & Hfull & Hm).
      pose proof (first_occurrences_length (names t ++ [n]) (fst <$> cs)) as Hl.
      rewrite length_app in Hl. simpl in Hl.
      pose proof (ok_count _ Hok) as Hc. unfold names in Hl at 1.
      rewrite length_fmap in Hl.
      destruct (ok_capacity _ Hok) as [?|(k & Hk & Hpow & _)]; [done|].
      pose proof (below_ceiling k Hk). lia. }
    destruct (add_new t n s Hh Hok Hnew Hroom) as (Hr1 & Hok1 & He1).
    destruct (addKnownNetwork t n s) as [r t1]; simpl in *. subst r.
    assert (names t1 = names t ++ [n]) as Hn1.
    { unfold names. by rewrite He1, fmap_app. }
    rewrite <- Hn1 in Hlen.
    destruct (IH t1 Hok1 Hlen) as (Hr & Hok' & Hn & Hp).
    destruct (add_all t1 cs) as [rs t2]; simpl in *.
    rewrite Hr, Hn, Hn1. split; [done|]. split; [done|]. split; [done|].
    etrans; [|exact Hp]. rewrite He1. by apply prefix_app_r.
Qed.

Lemma position_lookup (es : list network) i n :
  NoDup (ssid <$> es) -> (ssid <$> es) !! i = Some n ->
  position n es = Some i.
Proof.
  revert i. induction es as [|e es IH]; intros i Hd Hi; [done|].
  cbn [fmap list_fmap] in Hd, Hi. apply NoDup_cons in Hd as [Hne Hd].
  simpl. destruct i as [|i]; simpl in Hi.
  - injection Hi as <-. by rewrite String.eqb_refl.
  - destruct (String.eqb_spec (ssid e) n) as [He|He].
    + exfalso. apply Hne. rewrite He. by eapply list_elem_of_lookup_2.
    + by rewrite (IH i Hd Hi).
Qed.


Lemma first_occurrences_app seed l1 l2 :
  first_occurrences seed (l1 ++ l2) =
  first_occurrences (first_occurrences seed l1) l2.
Proof. apply fold_left_app. Qed.

Lemma names_prefix t1 t2 :
  entries t1 `prefix_of` entries t2 -> names t1 `prefix_of` names t2.
Proof. intros [k Hk]. exists (ssid <$> k). unfold names. by rewrite Hk, fmap_app. Qed.

Lemma lookupKnownNetwork_at t i n :
  registry_ok t -> names t !! i = Some n ->
  lookupKnownNetwork t n = Z.of_nat i.
Proof.
  intros Hok Hi. rewrite lookupKnownNetwork_spec by done.
  by rewrite (position_lookup (entries t) i n (ok_distinct _ Hok) Hi).
Qed.

(** C9. Re-adding a name the registry already holds returns true and changes
    nothing: the state after the call is the state before it, so the count
    and every stored credential are as they were. *)
Theorem addKnownNetwork_known_name t name secret :
  sentinel_ok -> registry_ok t -> name ∈ names t ->
  fst (addKnownNetwork t name secret) = true /\
  snd (addKnownNetwork t name secret) = t /\
  numKnownNetworks (snd (addKnownNetwork t name secret)) = numKnownNetworks t /\
  entries (snd (addKnownNetwork t name secret)) = entries t.
Proof.
  intros Hs Hok Hin. by rewrite (add_present t name secret Hs Hok Hin).
Qed.


(** For any value of the constant: a new name is refused exactly at the
    ceiling. *)
Lemma registry_full_iff_ceiling t :
  registry_ok t ->
  registry_full t <-> _numKnownNetworks t = capacity_ceiling.
Proof.
  intros Hok. pose proof max_le_ceiling. pose proof ceiling_ge_2.
  pose proof (ok_bound _ Hok) as Hb. unfold registry_full.
  destruct (ok_capacity _ Hok) as [Hz | (k & Hk & Hpow & Hc)]; [lia|].
  split; [|lia]. intros (_ & Hn & Hm).
  destruct (Z.eq_dec (_allocatedKnownNetworks t) capacity_ceiling); [lia|].
  pose proof (below_ceiling k Hk). lia.
Qed.


Lemma names_length t :
  registry_ok t -> Z.of_nat (length (names t)) = _numKnownNetworks t.
Proof. intros Hok. unfold names. rewrite length_fmap. apply (ok_count _ Hok). Qed.



(** C3. A run of [addKnownNetwork] calls whose distinct names stay within
    the capacity the storage can reach (which is at least
    [MAX_KNOWN_NETWORKS]): every call returns true, the count is the number of
    distinct names, each name is found at the index of its first call, and
    that is the index it was found at after any earlier part of the run:
    when the storage grows, the credentials already stored stay at the front,
    in order. *)
Theorem registry_tracks_distinct_names t0 cs cs1 cs2 i n :
  header_ok -> registry_ok t0 ->
  Z.of_nat (length (first_occurrences (names t0) (fst <$> cs)))
    <= capacity_ceiling ->
  cs = cs1 ++ cs2 ->
  first_occurrences (names t0) (fst <$> cs) !! i = Some n ->
  fst (add_all t0 cs) = replicate (length cs) true /\
  numKnownNetworks (snd (add_all t0 cs)) =
    Z.of_nat (length (first_occurrences (names t0) (fst <$> cs))) /\
  names (snd (add_all t0 cs)) = first_occurrences (names t0) (fst <$> cs) /\
  lookupKnownNetwork (snd (add_all t0 cs)) n = Z.of_nat i /\
  entries (snd (add_all t0 cs1)) `prefix_of` entries (snd (add_all t0 cs)) /\
  (hasKnownNetwork (snd (add_all t0 cs1)) n = true ->
   lookupKnownNetwork (snd (add_all t0 cs1)) n = Z.of_nat i).
Proof.
  intros Hh Hok0 Hlen Hcs Hi.
  destruct (add_all_within t0 cs Hh Hok0 Hlen) as (Hr & Hok & Hn & _).
  split; [done|]. split.
  { unfold numKnownNetworks. by rewrite <- (names_length _ Hok), Hn. }
  split; [done|]. split.
  { apply lookupKnownNetwork_at; [done | by rewrite Hn]. }
  subst cs. rewrite fmap_app, first_occurrences_app in Hlen.
  destruct (add_all_within t0 cs1 Hh Hok0) as (_ & Hok1 & Hn1 & _).
  { pose proof (first_occurrences_length
                  (first_occurrences (names t0) (fst <$> cs1)) (fst <$> cs2)).
    lia. }
  rewrite <- Hn1 in Hlen.
  destruct (add_all_within _ cs2 Hh Hok1 Hlen) as (_ & _ & _ & Hp).
  assert (snd (add_all t0 (cs1 ++ cs2)) = snd (add_all (snd (add_all t0 cs1)) cs2))
    as Hsnd by (by rewrite add_all_app).
  rewrite Hsnd in *. split; [done|].
  intros Hhas. apply (hasKnownNetwork_spec _ n (proj2 Hh) Hok1) in Hhas.
  apply list_elem_of_lookup in Hhas as [j Hj].
  rewrite (lookupKnownNetwork_at _ j n Hok1 Hj). f_equal.
  apply names_prefix in Hp. destruct Hp as [k Hk].
  rewrite <- Hn, Hk in Hi.
  pose proof (ok_distinct _ Hok) as Hd. rewrite Hk in Hd.
  eapply NoDup_lookup; [exact Hd | | exact Hi].
  by apply lookup_app_l_Some.
Qed.

End RegistryRuns.


(** ** The wait loop *)

Section WaitLoop.
Context {header : WiFiBase_h} {env : Collaborators}.

Lemma clock_bound B : clock_ok B -> 0 <= B.
Proof. intros Hc. destruct (Hc [] 0 c_status eq_refl) as [? _]. lia. Qed.

Lemma now_tick B c w :
  clock_ok B -> timed c = true -> now w <= now (tick c w) <= now w + B.
Proof.
  intros Hc Ht. destruct (Hc (history w) (now w) c Ht) as [? _].
  cbn [tick now]. lia.
Qed.

Lemma now_delay B w : clock_ok B -> now w + 100 <= now (delay 100 w).
Proof.
  intros Hc. destruct (Hc (history w) (now w) (c_delay 100) eq_refl) as [_ H].
  specialize (H eq_refl). unfold delay. cbn [tick now]. lia.
Qed.

Lemma history_next_poll w :
  history (next_poll w) = c_delay 100 :: c_millis :: c_status :: history w.
Proof. done. Qed.

Lemma now_next_poll B w :
  clock_ok B -> now w + 100 <= now (next_poll w) <= now w + 3 * B.
Proof.
  intros Hc. unfold next_poll, millis, WiFi_status. cbn [snd].
  pose proof (now_tick B c_status w Hc eq_refl).
  pose proof (now_tick B c_millis (tick c_status w) Hc eq_refl).
  pose proof (now_tick B (c_delay 100) (tick c_millis (tick c_status w)) Hc
                eq_refl) as Hd.
  pose proof (now_delay B (tick c_millis (tick c_status w)) Hc) as Hd'.
  unfold delay in *. lia.
Qed.

Lemma elapsed_read_at w k :
  elapsed w k = (read_at w k - now w) mod 2 ^ 32.
Proof.
  unfold elapsed, elapsed_at, read_at, millis. cbn [fst snd].
  by rewrite Zminus_mod_idemp_l, Zminus_mod_idemp_r.
Qed.

Lemma read_at_0 B w : clock_ok B -> now w <= read_at w 0 <= now w + 2 * B.
Proof.
  intros Hc. unfold read_at, millis, WiFi_status. cbn [snd poll_world].
  pose proof (now_tick B c_millis w Hc eq_refl).
  pose proof (now_tick B c_status (tick c_millis w) Hc eq_refl).
  lia.
Qed.

Lemma read_at_S B w k :
  clock_ok B -> read_at w k + 100 <= read_at w (S k) <= read_at w k + 3 * B.
Proof.
  intros Hc. unfold read_at. cbn [poll_world].
  set (u := poll_world (snd (millis w)) k).
  unfold next_poll, millis, WiFi_status. cbn [snd].
  pose proof (now_tick B c_millis (tick c_status u) Hc eq_refl).
  pose proof (now_delay B (tick c_millis (tick c_status u)) Hc) as Hd.
  pose proof (now_tick B (c_delay 100) (tick c_millis (tick c_status u)) Hc
                eq_refl) as Hd'.
  pose proof (now_tick B c_status
                (tick (c_delay 100) (tick c_millis (tick c_status u))) Hc
                eq_refl).
  unfold delay in *. lia.
Qed.

Lemma read_at_lower B w k :
  clock_ok B -> now w + 100 * Z.of_nat k <= read_at w k.
Proof.
  intros Hc. induction k as [|k IH].
  - pose proof (read_at_0 B w Hc). lia.
  - pose proof (read_at_S B w k Hc). lia.
Qed.

(** While no earlier round has timed out, the difference of the clock
    readings is the time since the wait began: the subtraction does not
    wrap. *)
Lemma elapsed_exact B timeout w k :
  clock_ok B -> 0 <= timeout -> timeout + 3 * B < 2 ^ 32 ->
  (forall j, (j < k)%nat -> elapsed w j <= timeout) ->
  elapsed w k = read_at w k - now w /\
  read_at w k - now w <= timeout + 3 * B.
Proof.
  intros Hc Ht HB. pose proof (clock_bound B Hc) as HB0.
  induction k as [|k IH]; intros Hbefore.
  - pose proof (read_at_0 B w Hc). rewrite elapsed_read_at.
    split; [apply Z.mod_small|]; lia.
  - destruct IH as [He Hle]; [intros j Hj; apply Hbefore; lia|].
    pose proof (Hbefore k ltac:(lia)) as Hk. rewrite He in Hk.
    pose proof (read_at_S B w k Hc). pose proof (read_at_lower B w k Hc).
    rewrite elapsed_read_at. split; [apply Z.mod_small|]; lia.
Qed.

(** The least round with a given property. *)
Lemma first_round (P : nat -> bool) (b : nat) :
  P b = true ->
  exists n, (n <= b)%nat /\ P n = true /\
            forall k, (k < n)%nat -> P k = false.
Proof.
  induction b as [b IH] using lt_wf_ind. intros Hb.
  destruct (forallb (fun k => negb (P k)) (seq 0 b)) eqn:Hall.
  - exists b. split; [lia|]. split; [done|]. intros k Hk.
    rewrite forallb_forall in Hall. apply negb_true_iff, Hall, in_seq. lia.
  - apply not_true_iff_false in Hall. rewrite forallb_forall in Hall.
    assert (exists k, (k < b)%nat /\ P k = true) as (k & Hk & HP).
    { clear IH Hb. induction b as [|b IHb].
      - exfalso. apply Hall. intros x Hx. by apply in_seq in Hx; lia.
      - destruct (P b) eqn:HPb; [exists b; split; [lia | done]|].
        destruct IHb as (k & Hk & HP).
        + intros Hall'. apply Hall. intros x Hx. apply in_seq in Hx.
          destruct (Nat.eq_dec x b) as [->|]; [by rewrite HPb|].
          apply Hall', in_seq. lia.
        + exists k. split; [lia | done]. }
    destruct (IH k Hk HP) as (n & Hn & HPn & Hmin).
    exists n. split; [lia | done].
Qed.

Lemma bounded_search (P : nat -> bool) (b : nat) :
  (forall k, (k <= b)%nat -> P k = false) \/
  (exists k, (k <= b)%nat /\ P k = true).
Proof.
  induction b as [|b [IH|(k & Hk & HP)]].
  - destruct (P 0%nat) eqn:H0; [right; by exists 0%nat|].
    left. intros k Hk. by replace k with 0%nat by lia.
  - destruct (P (S b)) eqn:HS; [right; by exists (S b)|].
    left. intros k Hk. destruct (Nat.eq_dec k (S b)) as [->|]; [done|].
    apply IH. lia.
  - right. exists k. split; [lia | done].
Qed.

(** Unresolved rounds that have not timed out only consume fuel. *)
Lemma connectWait_loop_rounds timeout start w n :
  forall j fuel,
  (forall k, (j <= k < j + n)%nat ->
     resolved (poll_status w k) = false /\
     elapsed_at start (poll_world w k) <= timeout) ->
  connectWait_loop (n + fuel) timeout start (poll_world w j) =
  connectWait_loop fuel timeout start (poll_world w (j + n)).
Proof.
  induction n as [|n IH]; intros j fuel Hk.
  { by rewrite Nat.add_0_r. }
  destruct (Hk j ltac:(lia)) as [Hres Hel].
  unfold resolved, poll_status in Hres. apply orb_false_iff in Hres as [Hc Hf].
  cbn [Nat.add connectWait_loop].
  destruct (WiFi_status (poll_world w j)) as [s u] eqn:Hs.
  cbn [fst] in Hc, Hf. rewrite Hc, Hf.
  unfold elapsed_at in Hel. rewrite Hs in Hel. cbn [snd] in Hel.
  destruct (millis u) as [m u'] eqn:Hm. cbn [fst] in Hel.
  apply Z.ltb_ge in Hel. rewrite Hel.
  replace (j + S n)%nat with (S j + n)%nat by lia.
  replace (delay 100 u') with (poll_world w (S j)).
  { apply (IH (S j) fuel). intros k Hk'. apply Hk. lia. }
  cbn [poll_world]. unfold next_poll. rewrite Hs. cbn [snd]. by rewrite Hm.
Qed.

Lemma connectWait_loop_stop timeout start w n fuel :
  (forall k, (k < n)%nat ->
     resolved (poll_status w k) = false /\
     elapsed_at start (poll_world w k) <= timeout) ->
  (resolved (poll_status w n) = false ->
   timeout < elapsed_at start (poll_world w n)) ->
  connectWait_loop (n + S fuel) timeout start w = Some (wait_outcome w n).
Proof.
  intros Hbefore Hstop.
  pose proof (connectWait_loop_rounds timeout start w n 0 (S fuel)) as Hr.
  cbn [poll_world Nat.add] in Hr.
  rewrite Hr by (intros k Hk; apply Hbefore; lia).
  cbn [connectWait_loop]. unfold wait_outcome, resolved, poll_status in *.
  unfold elapsed_at in Hstop.
  destruct (WiFi_status (poll_world w n)) as [s u]. cbn [fst snd] in *.
  destruct (is_WL_CONNECTED s); [done|].
  destruct (is_WL_CONNECT_FAILED s); [done|].
  destruct (millis u) as [m u']. cbn [fst snd] in *.
  specialize (Hstop eq_refl). apply Z.ltb_lt in Hstop. by rewrite Hstop.
Qed.

(** The wait returns: it stops in the first round that finds the link up or
    failed, or in which the timeout has passed, and that round comes within
    the budget. *)
Lemma connectWait_returns B t w :
  clock_ok B ->
  0 <= _connectionTimeoutMs t -> _connectionTimeoutMs t + 3 * B < 2 ^ 32 ->
  exists n : nat,
    (n < poll_budget t)%nat /\
    (forall k, (k < n)%nat ->
       resolved (poll_status (snd (millis w)) k) = false /\
       elapsed w k <= _connectionTimeoutMs t) /\
    (resolved (poll_status (snd (millis w)) n) = false ->
     _connectionTimeoutMs t < elapsed w n) /\
    forall fuel, (n < fuel)%nat ->
      _connectWait fuel t w = Some (wait_outcome (snd (millis w)) n).
Proof.
  intros Hc Ht HB. set (w1 := snd (millis w)).
  set (P := fun k => resolved (poll_status w1 k)
                     || (_connectionTimeoutMs t <? elapsed w k)).
  set (b := (Z.to_nat (_connectionTimeoutMs t / 100) + 1)%nat).
  assert (exists k, (k <= b)%nat /\ P k = true) as (k0 & Hk0 & HP0).
  { destruct (bounded_search P b) as [Hnone|]; [exfalso | done].
    assert (forall j, (j < b)%nat -> elapsed w j <= _connectionTimeoutMs t)
      as Hbefore.
    { intros j Hj. specialize (Hnone j ltac:(lia)). unfold P in Hnone.
      apply orb_false_iff in Hnone as [_ Hl]. by apply Z.ltb_ge in Hl. }
    destruct (elapsed_exact B _ w b Hc Ht HB Hbefore) as [He _].
    specialize (Hnone b ltac:(lia)). unfold P in Hnone.
    apply orb_false_iff in Hnone as [_ Hl]. apply Z.ltb_ge in Hl.
    rewrite He in Hl. pose proof (read_at_lower B w b Hc) as Hlow.
    unfold b in Hlow, Hl.
    rewrite Nat2Z.inj_add, Z2Nat.id in Hlow by (apply Z.div_pos; lia).
    pose proof (Z.mod_pos_bound (_connectionTimeoutMs t) 100 ltac:(lia)).
    pose proof (Z.div_mod (_connectionTimeoutMs t) 100 ltac:(lia)).
    lia. }
  destruct (first_round P k0 HP0) as (n & Hn & HP & Hmin).
  exists n. split; [unfold poll_budget; lia|].
  assert (forall k, (k < n)%nat ->
            resolved (poll_status w1 k) = false /\
            elapsed w k <= _connectionTimeoutMs t) as Hbefore.
  { intros k Hk. apply Hmin in Hk. unfold P in Hk.
    apply orb_false_iff in Hk as [Hr Hl]. by apply Z.ltb_ge in Hl. }
  assert (resolved (poll_status w1 n) = false ->
          _connectionTimeoutMs t < elapsed w n) as Hstop.
  { intros Hr. unfold P in HP. rewrite Hr in HP. by apply Z.ltb_lt in HP. }
  split; [done|]. split; [done|].
  intros fuel Hf. unfold _connectWait, millis. cbv beta iota.
  replace fuel with (n + S (fuel - n - 1))%nat by lia.
  exact (connectWait_loop_stop _ (fst (millis w)) w1 n _ Hbefore Hstop).
Qed.

End WaitLoop.

(** ** The iteration over the known networks *)

Section Iteration.
Context {header : WiFiBase_h} {env : Collaborators}.

Lemma connectWait_loop_begins fuel timeout start w r w' :
  connectWait_loop fuel timeout start w = Some (r, w') ->
  begins (history w') = begins (history w).
Proof.
  revert w. induction fuel as [|fuel IH]; intros w; [done|].
  cbn [connectWait_loop]. unfold WiFi_status, millis. cbv beta iota.
  destruct (is_WL_CONNECTED _); [by intros [= <- <-]|].
  destruct (is_WL_CONNECT_FAILED _); [by intros [= <- <-]|].
  destruct (_ <? _); [by intros [= <- <-]|].
  intros Hw. by rewrite (IH _ Hw).
Qed.

Lemma connectWait_begins fuel t w r w' :
  _connectWait fuel t w = Some (r, w') ->
  begins (history w') = begins (history w).
Proof.
  unfold _connectWait, millis. cbv beta iota. intros Hw.
  by rewrite (connectWait_loop_begins _ _ _ _ _ _ Hw).
Qed.

Lemma attempted_since w w' (l : list call) :
  begins (history w') = l ++ begins (history w) -> attempted w w' = rev l.
Proof.
  intros Hb. unfold attempted. rewrite Hb, length_app.
  replace (length l + length (begins (history w))
           - length (begins (history w)))%nat with (length l) by lia.
  by rewrite take_app_length.
Qed.

Lemma slot_lookup t (i : nat) e :
  registry_ok t -> entries t !! i = Some e ->
  _knownNetworks t !! i = Some (Some e).
Proof.
  intros Hok He. rewrite (ok_slots _ Hok). apply lookup_app_l_Some.
  by rewrite list_lookup_fmap, He.
Qed.

Lemma attempt_call_later i e : (1 <= i)%nat -> attempt_call i e = literal e.
Proof. intros Hi. unfold attempt_call. by destruct i; [lia|]. Qed.


(** The [for] loop is the iteration in order over the credentials from
    position [i] on. *)
Lemma connect_loop_in_order fuel t es :
  registry_ok t ->
  forall (i : nat) w, (1 <= i)%nat -> drop i (entries t) = es ->
  connect_loop fuel (length es) (Z.of_nat i) t w =
  connect_result t (attempts_in_order fuel t i es w).
Proof.
  intros Hok. induction es as [|e es IH]; intros i w Hi Hd; [done|].
  assert (entries t !! i = Some e) as He.
  { rewrite <- (Nat.add_0_r i), <- lookup_drop, Hd. done. }
  cbn [length connect_loop attempts_in_order]. rewrite Nat2Z.id.
  rewrite (slot_lookup t i e Hok He).
  unfold attempt. rewrite attempt_call_later by done.
  change (tick (literal e) w) with (WiFi_begin (ssid e) (passwd e) w).
  destruct (_connectWait fuel t _) as [[[] w2]|]; [done | | done].
  replace (Z.of_nat i + 1) with (Z.of_nat (S i)) by lia.
  apply IH; [lia|].
  replace (S i) with (i + 1)%nat by lia. by rewrite <- drop_drop, Hd.
Qed.

Lemma connectToNetwork_in_order fuel t w :
  registry_ok t ->
  is_WL_CONNECTED (fst (WiFi_status w)) = false ->
  _connectToNetwork fuel t w =
  connect_result t
    (attempts_in_order fuel t 0 (entries t) (snd (WiFi_status w))).
Proof.
  intros Hok Hc. unfold _connectToNetwork.
  destruct (WiFi_status w) as [s w0]. simpl in Hc. rewrite Hc. simpl snd.
  pose proof (ok_count _ Hok) as Hcnt.
  destruct (entries t) as [|e0 rest] eqn:He.
  { simpl in Hcnt. rewrite <- Hcnt. done. }
  simpl in Hcnt.
  destruct (Z.eqb_spec (_numKnownNetworks t) 0) as [?|_]; [lia|].
  cbn [negb]. change (Z.to_nat 0) with 0%nat.
  rewrite (slot_lookup t 0 e0 Hok) by (by rewrite He).
  assert (drop 1 (entries t) = rest) as Hd by (by rewrite He).
  cbn [attempts_in_order]. unfold attempt, attempt_call. cbn [Nat.eqb andb].
  destruct (is_empty_cstr (ssid e0)).
  - change (tick c_begin_stored w0) with (WiFi_begin_stored w0).
    destruct (_connectWait fuel t _) as [[[] w2]|]; [done | | done].
    replace (Z.to_nat (_numKnownNetworks t - (0 + 1))) with (length rest)
      by lia.
    by apply (connect_loop_in_order fuel t rest Hok 1%nat).
  - replace (Z.to_nat (_numKnownNetworks t - 0)) with (S (length rest))
      by lia.
    cbn [connect_loop]. change (Z.to_nat 0) with 0%nat.
    rewrite (slot_lookup t 0 e0 Hok) by (by rewrite He).
    change (tick (literal e0) w0) with (WiFi_begin (ssid e0) (passwd e0) w0).
    destruct (_connectWait fuel t _) as [[[] w2]|]; [done | | done].
    by apply (connect_loop_in_order fuel t rest Hok 1%nat).
Qed.

Lemma begins_attempt_call i e h :
  begins (attempt_call i e :: h) = attempt_call i e :: begins h.
Proof. unfold attempt_call, literal. by destruct (_ && _). Qed.

(** The requests of the iteration are those of the credentials up to the
    one that connected, in order. *)
Lemma attempts_in_order_begins fuel t es :
  forall i w res w',
  attempts_in_order fuel t i es w = Some (res, w') ->
  exists k : nat,
    begins (history w') = rev (attempt_calls i (take k es))
                          ++ begins (history w) /\
    match res with
    | Some m => m = (i + k - 1)%nat /\ (1 <= k <= length es)%nat
    | None => k = length es
    end.
Proof.
  induction es as [|e es IH]; intros i w res w'.
  { intros [= <- <-]. by exists 0%nat. }
  cbn [attempts_in_order]. unfold attempt.
  destruct (_connectWait fuel t _) as [[[] w2]|] eqn:Hw; [| |done].
  - intros [= <- <-]. exists 1%nat. apply connectWait_begins in Hw.
    rewrite Hw. cbn [tick history]. rewrite begins_attempt_call.
    split; [done | simpl; lia].
  - intros Hrest. destruct (IH _ _ _ _ Hrest) as (k & Hb & Hres).
    exists (S k). apply connectWait_begins in Hw. rewrite Hb, Hw.
    cbn [tick history]. rewrite begins_attempt_call.
    split.
    + cbn [take attempt_calls rev]. by rewrite <- app_assoc.
    + destruct res as [m|]; simpl; lia.
Qed.


Lemma setConnected_index t k :
  0 <= k < 256 -> _connectedIndex (_setConnected t k) = k.
Proof. intros Hk. simpl. by apply Z.mod_small. Qed.

Lemma connected_iff t :
  connected t = true <-> _connectedIndex t <> INDEX_DISCONNECTED.
Proof.
  unfold connected. rewrite negb_true_iff. apply Z.eqb_neq.
Qed.

Lemma connected_at_position t (k : nat) :
  sentinel_ok -> registry_ok t -> _numKnownNetworks t <= 256 ->
  (k < length (entries t))%nat ->
  _connectedIndex (_setConnected t (Z.of_nat k)) = Z.of_nat k /\
  connected (_setConnected t (Z.of_nat k)) = true.
Proof.
  intros Hs Hok Hn Hk. pose proof (ok_count _ Hok).
  assert (_connectedIndex (_setConnected t (Z.of_nat k)) = Z.of_nat k) as Hi
    by (apply setConnected_index; lia).
  split; [done|]. apply connected_iff. rewrite Hi.
  by apply (position_in_range t).
Qed.

(** C4. [startup] makes its connect requests for the credentials in storage
    order from position 0; the iteration ends with the first attempt that
    succeeds: its position [k] becomes the connected index, [connected] holds,
    and the requests made are exactly those for positions 0 to [k].  When no
    attempt succeeds every credential was requested, in order. *)
Theorem startup_priority fuel t w res w' :
  sentinel_ok -> registry_ok t -> _numKnownNetworks t <= 256 ->
  is_WL_CONNECTED (fst (WiFi_status w)) = false ->
  attempts_in_order fuel t 0 (entries t) (snd (WiFi_status w))
    = Some (res, w') ->
  match res with
  | Some k =>
      startup fuel t w = Some (true, _setConnected t (Z.of_nat k), w') /\
      (k < length (entries t))%nat /\
      _connectedIndex (_setConnected t (Z.of_nat k)) = Z.of_nat k /\
      connected (_setConnected t (Z.of_nat k)) = true /\
      attempted w w' = attempt_calls 0 (take (S k) (entries t))
  | None =>
      _connectToNetwork fuel t w = Some (false, _setDisconnected t, w') /\
      attempted w w' = attempt_calls 0 (entries t)
  end.
Proof.
  intros Hs Hok Hn Hc Hrun.
  pose proof (connectToNetwork_in_order fuel t w Hok Hc) as Hnet.
  rewrite Hrun in Hnet.
  destruct (attempts_in_order_begins _ _ _ _ _ _ _ Hrun) as (j & Hb & Hres).
  change (begins (history (snd (WiFi_status w)))) with (begins (history w))
    in Hb.
  apply attempted_since in Hb. rewrite rev_involutive in Hb.
  destruct res as [k|].
  - destruct Hres as [-> Hj].
    assert (j - 1 < length (entries t))%nat as Hk by lia.
    replace (S (0 + j - 1)) with j by lia.
    destruct (connected_at_position t (0 + j - 1) Hs Hok Hn Hk) as [Hi Hcon].
    unfold startup. rewrite Hnet. cbn [connect_result]. done.
  - subst j. rewrite take_ge in Hb by done. done.
Qed.


Lemma attempts_in_order_app fuel t es1 es2 :
  forall i w wi,
  attempts_in_order fuel t i es1 w = Some (None, wi) ->
  attempts_in_order fuel t i (es1 ++ es2) w =
  attempts_in_order fuel t (i + length es1) es2 wi.
Proof.
  induction es1 as [|e es1 IH]; intros i w wi.
  { intros [= <-]. by rewrite Nat.add_0_r. }
  cbn [attempts_in_order app length].
  destruct (attempt fuel t i e w) as [[[] w2]|]; [done| |done].
  intros Hrest. rewrite (IH _ _ _ Hrest). f_equal. lia.
Qed.

(** After a failed attempt for the credential at position [i] the iteration
    is the one over the credentials behind it, from the world the wait
    left. *)
Lemma connectToNetwork_after_failure fuel t w (i : nat) e wi wf :
  registry_ok t ->
  is_WL_CONNECTED (fst (WiFi_status w)) = false ->
  entries t !! i = Some e ->
  attempts_in_order fuel t 0 (take i (entries t)) (snd (WiFi_status w))
    = Some (None, wi) ->
  attempt fuel t i e wi = Some (false, wf) ->
  _connectToNetwork fuel t w =
  connect_result t
    (attempts_in_order fuel t (S i) (drop (S i) (entries t)) wf).
Proof.
  intros Hok Hc He Hpre Hfail.
  rewrite (connectToNetwork_in_order fuel t w Hok Hc). f_equal.
  transitivity (attempts_in_order fuel t 0
                  (take i (entries t) ++ e :: drop (S i) (entries t))
                  (snd (WiFi_status w))).
  { by rewrite (take_drop_middle (entries t) i e He). }
  rewrite (attempts_in_order_app _ _ _ _ _ _ _ Hpre).
  rewrite length_take_le by (apply lookup_lt_Some in He; lia).
  cbn [attempts_in_order Nat.add]. by rewrite Hfail.
Qed.

(** C6. A connection attempt's wait asks the link status, reads the clock and
    sleeps 100 ms, round after round.  It stops in the first round [n] in
    which the radio reports the link up (result true), reports failure
    (result false), or in which the time since the wait began exceeds
    [_connectionTimeoutMs]; in the last case it tells the radio to give up
    the attempt and the result is false.  That round comes within the budget
    of the timeout.  A wait that returned false for the credential at
    position [i] is not reported to the caller: the iteration goes on with
    the credential at position [i + 1] in the world the wait left, a success
    there is the result of [startup], and only when no credential is left
    does the iteration fail.  The calls of the wait take at most [B] ms
    each and the sleep at least its 100 ms. *)
Theorem connectWait_bounded_poll B t w :
  clock_ok B ->
  0 <= _connectionTimeoutMs t -> _connectionTimeoutMs t + 3 * B < 2 ^ 32 ->
  exists n : nat,
    (forall k, (k < n)%nat ->
       resolved (poll_status (snd (millis w)) k) = false /\
       elapsed w k <= _connectionTimeoutMs t) /\
    (forall k,
       history (poll_world (snd (millis w)) (S k)) =
         c_delay 100 :: c_millis :: c_status
         :: history (poll_world (snd (millis w)) k) /\
       read_at w k + 100 <= read_at w (S k)) /\
    (forall k, (k <= n)%nat -> elapsed w k = read_at w k - now w) /\
    (forall fuel, (n < fuel)%nat ->
       _connectWait fuel t w =
       Some
         (let u := snd (WiFi_status (poll_world (snd (millis w)) n)) in
          match poll_status (snd (millis w)) n with
          | WL_CONNECTED => (true, u)
          | WL_CONNECT_FAILED => (false, u)
          | _ => (false, esp_wifi_disconnect (snd (millis u)))
          end)) /\
    (resolved (poll_status (snd (millis w)) n) = false ->
     _connectionTimeoutMs t < elapsed w n) /\
    (n < poll_budget t)%nat /\
    (forall fuel ws (i : nat) e wi wf,
       registry_ok t ->
       is_WL_CONNECTED (fst (WiFi_status ws)) = false ->
       entries t !! i = Some e ->
       attempts_in_order fuel t 0 (take i (entries t))
         (snd (WiFi_status ws)) = Some (None, wi) ->
       attempt fuel t i e wi = Some (false, wf) ->
       _connectToNetwork fuel t ws =
         connect_result t
           (attempts_in_order fuel t (S i) (drop (S i) (entries t)) wf) /\
       (forall e' w2,
          entries t !! S i = Some e' ->
          attempt fuel t (S i) e' wf = Some (true, w2) ->
          startup fuel t ws =
            Some (true, _setConnected t (Z.of_nat (S i)), w2)) /\
       (length (entries t) = S i ->
        _connectToNetwork fuel t ws = Some (false, _setDisconnected t, wf))).
Proof.
  intros Hc Ht HB.
  destruct (connectWait_returns B t w Hc Ht HB) as (n & Hn & Hb & Hs & Hr).
  exists n. split; [done|].
  split.
  { intros k. split; [apply history_next_poll|].
    by destruct (read_at_S B w k Hc). }
  split.
  { intros k Hk. apply (elapsed_exact B (_connectionTimeoutMs t)); try done.
    intros j Hj. apply Hb. lia. }
  split.
  { intros fuel Hf. rewrite (Hr fuel Hf). f_equal. unfold wait_outcome.
    by destruct (poll_status (snd (millis w)) n). }
  split; [done|]. split; [done|].
  intros fuel ws i e wi wf Hok Hlink He Hpre Hfail.
  pose proof (connectToNetwork_after_failure fuel t ws i e wi wf Hok Hlink He
                Hpre Hfail) as Hnet.
  split; [done|]. split.
  - intros e' w2 He' Hnext. unfold startup. rewrite Hnet.
    rewrite (drop_S _ _ _ He'). cbn [attempts_in_order]. by rewrite Hnext.
  - intros Hlen. rewrite Hnet, drop_ge by lia. done.
Qed.

End Iteration.

(** ** What the functions leave unchanged *)

Section Frames.
Context {header : WiFiBase_h}.

Lemma registry_ok_ext t' t :
  registry t' = registry t -> registry_ok t -> registry_ok t'.
Proof.
  unfold registry. intros [= Hn Ha Hk] [H1 H2 H3 H4 H5].
  assert (entries t' = entries t) as He by (unfold entries; by rewrite Hn, Hk).
  split; unfold names; rewrite ?He, ?Hn, ?Ha, ?Hk; done.
Qed.

Lemma registry_ok_set_connectedIndex i t :
  registry_ok t -> registry_ok (set_connectedIndex i t).
Proof. by apply registry_ok_ext. Qed.

Lemma add_settings t name secret :
  settings (snd (addKnownNetwork t name secret)) = settings t.
Proof.
  unfold addKnownNetwork.
  repeat match goal with |- context [if ?b then _ else _] => destruct b end;
    done.
Qed.

Lemma set_connectedIndex_frame i t :
  settings (set_connectedIndex i t) = settings t /\
  registry (set_connectedIndex i t) = registry t.
Proof. done. Qed.

Section WithCollaborators.
Context {env : Collaborators}.

Lemma connect_loop_frame fuel todo :
  forall index t w r t' w',
  connect_loop fuel todo index t w = Some (r, t', w') ->
  settings t' = settings t /\ registry t' = registry t.
Proof.
  induction todo as [|todo IH]; intros index t w r t' w'.
  { by intros [= <- <- <-]. }
  cbn [connect_loop].
  destruct (_knownNetworks t !! Z.to_nat index) as [[e|]|]; [|done|done].
  destruct (_connectWait fuel t _) as [[[] w2]|]; [| |done].
  - by intros [= <- <- <-].
  - apply IH.
Qed.

Lemma connectToNetwork_frame fuel t w r t' w' :
  _connectToNetwork fuel t w = Some (r, t', w') ->
  settings t' = settings t /\ registry t' = registry t.
Proof.
  unfold _connectToNetwork. destruct (WiFi_status w) as [s w0].
  destruct (is_WL_CONNECTED s); [by intros [= <- <- <-]|].
  destruct (negb _); [|by intros [= <- <- <-]].
  destruct (_knownNetworks t !! Z.to_nat 0) as [[e|]|]; [|done|done].
  destruct (is_empty_cstr (ssid e)); [|apply connect_loop_frame].
  destruct (_connectWait fuel t _) as [[[] w2]|]; [| |done].
  - by intros [= <- <- <-].
  - apply connect_loop_frame.
Qed.

Lemma startupAccessPoint_settings t w :
  settings (snd (fst (_startupAccessPoint t w))) = settings t.
Proof.
  unfold _startupAccessPoint, startConfigPortal.
  destruct (portal _ _) as [[name secret]|]; [|done].
  destruct (_ =? _); [|done].
  pose proof (add_settings t name secret) as Ha.
  destruct (addKnownNetwork t name secret) as [ok t1]. simpl in *. done.
Qed.

Lemma startupAccessPoint_registry_ok t w :
  header_ok -> registry_ok t ->
  registry_ok (snd (fst (_startupAccessPoint t w))).
Proof.
  intros Hh Hok. unfold _startupAccessPoint, startConfigPortal.
  destruct (portal _ _) as [[name secret]|]; [|done].
  destruct (_ =? _).
  - pose proof (registry_ok_add t name secret Hh Hok) as Ha.
    destruct (addKnownNetwork t name secret) as [ok t1]. simpl in *.
    by apply registry_ok_set_connectedIndex.
  - by apply registry_ok_set_connectedIndex.
Qed.

Lemma startup_settings fuel t w r t' w' :
  startup fuel t w = Some (r, t', w') -> settings t' = settings t.
Proof.
  unfold startup.
  destruct (_connectToNetwork fuel t w) as [[[[] t1] w1]|] eqn:Hnet; [| |done].
  - intros [= <- <- <-]. by apply connectToNetwork_frame in Hnet as [? _].
  - apply connectToNetwork_frame in Hnet as [Hs _].
    destruct (_accessPointEnabled t1); [|by intros [= <- <- <-]].
    pose proof (startupAccessPoint_settings t1 w1) as Hap.
    destruct (_startupAccessPoint t1 w1) as [[up t2] w2]. simpl in Hap.
    destruct up; intros [= <- <- <-]; congruence.
Qed.

Lemma startup_registry_ok fuel t w r t' w' :
  header_ok -> registry_ok t ->
  startup fuel t w = Some (r, t', w') -> registry_ok t'.
Proof.
  intros Hh Hok. unfold startup.
  destruct (_connectToNetwork fuel t w) as [[[[] t1] w1]|] eqn:Hnet; [| |done].
  - intros [= <- <- <-]. apply connectToNetwork_frame in Hnet as [_ Hr].
    by apply (registry_ok_ext t1 t).
  - apply connectToNetwork_frame in Hnet as [_ Hr].
    assert (registry_ok t1) as Hok1 by (by apply (registry_ok_ext t1 t)).
    destruct (_accessPointEnabled t1); [|by intros [= <- <- <-]].
    pose proof (startupAccessPoint_registry_ok t1 w1 Hh Hok1) as Hap.
    destruct (_startupAccessPoint t1 w1) as [[up t2] w2]. simpl in Hap.
    destruct up; by intros [= <- <- <-].
Qed.

End WithCollaborators.

(** No public function sets [_running] or [_accessPointActive]. *)
Lemma reachable_flags t :
  reachable t -> _running t = false /\ _accessPointActive t = false.
Proof.
  induction 1 as [useStored stored | t b _ IH | t s p _ IH | t _ IH
                 | t name secret _ IH | t ms _ IH
                 | env fuel t w r t' w' _ IH Hrun].
  - unfold new_WiFiBase. by destruct (useStored && stored).
  - destruct IH as [Hr Ha]. unfold configBackground. by rewrite Hr.
  - destruct IH as [Hr Ha]. unfold configureAccessPoint. by rewrite Ha.
  - destruct IH as [Hr Ha]. unfold disableAccessPoint. by rewrite Ha.
  - pose proof (add_settings t name secret) as Hs. unfold settings in Hs.
    injection Hs as _ _ _ -> _ -> _. done.
  - done.
  - apply startup_settings in Hrun. unfold settings in Hrun.
    injection Hrun as _ _ _ -> _ -> _. done.
Qed.

Lemma reachable_registry_ok t : header_ok -> reachable t -> registry_ok t.
Proof.
  intros Hh. induction 1 as [useStored stored | t b _ IH | t s p _ IH | t _ IH
                 | t name secret _ IH | t ms _ IH
                 | env fuel t w r t' w' _ IH Hrun].
  - apply new_WiFiBase_ok.
  - unfold configBackground. destruct (_running t); [done|].
    by apply (registry_ok_ext _ t).
  - unfold configureAccessPoint. destruct (_accessPointActive t); [done|].
    by apply (registry_ok_ext _ t).
  - unfold disableAccessPoint. destruct (_accessPointActive t); simpl;
      by apply (registry_ok_ext _ t).
  - by apply registry_ok_add.
  - by apply (registry_ok_ext _ t).
  - by eapply startup_registry_ok.
Qed.

End Frames.

Section Flags.
Context {header : WiFiBase_h}.

(** C10. In every reachable state [_accessPointActive] is false: nothing
    sets it, starting the config portal included.  So [configureAccessPoint]
    returns true and stores its arguments, and [disableAccessPoint] returns
    true and only clears [_accessPointEnabled]; the teardown, which always
    reports failure, is never attempted. *)
Theorem accessPointActive_never_set (env : Collaborators) t s p w :
  reachable t ->
  _accessPointActive t = false /\
  _accessPointActive (snd (fst (_startupAccessPoint t w))) = false /\
  configureAccessPoint t s p =
    (true, set_accessPointEnabled true (set_AP (Some s) (Some p) t)) /\
  disableAccessPoint t = (true, set_accessPointEnabled false t).
Proof.
  intros Hr. destruct (reachable_flags t Hr) as [_ Ha].
  split; [done|]. split.
  { pose proof (startupAccessPoint_settings t w) as Hs. unfold settings in Hs.
    injection Hs as _ _ _ _ _ -> _. done. }
  unfold configureAccessPoint, disableAccessPoint. by rewrite Ha.
Qed.

(** C8 (what the code does, against the claim). [startup] does not set
    [_running], and neither does any other function: in the state a [startup]
    call leaves, whatever state it was called in, [_running] is false,
    [configBackground b] returns true and the background mode becomes [b].
    The rejection the claim describes is never reached. *)
Theorem configBackground_after_startup (env : Collaborators)
    fuel t w r t' w' b :
  reachable t -> startup fuel t w = Some (r, t', w') ->
  _running t' = false /\
  configBackground t' b = (true, set_background b t') /\
  _background (snd (configBackground t' b)) = b.
Proof.
  intros Hr Hrun.
  assert (reachable t') as Hr' by (by eapply reach_startup).
  destruct (reachable_flags t' Hr') as [Hrn _].
  unfold configBackground. by rewrite Hrn.
Qed.

End Flags.

(** ** [startup] *)

Section Startup.
Context {header : WiFiBase_h} {env : Collaborators}.

(** With the budget of rounds as fuel the iteration returns. *)
Lemma attempts_in_order_returns B fuel t es :
  clock_ok B ->
  0 <= _connectionTimeoutMs t -> _connectionTimeoutMs t + 3 * B < 2 ^ 32 ->
  (poll_budget t <= fuel)%nat ->
  forall i w, exists res w', attempts_in_order fuel t i es w = Some (res, w').
Proof.
  intros Hc Ht HB Hf.
  induction es as [|e es IH]; intros i w; [by eexists _, _|].
  cbn [attempts_in_order]. unfold attempt.
  destruct (connectWait_returns B t (tick (attempt_call i e) w) Hc Ht HB)
    as (n & Hn & _ & _ & Hr).
  rewrite (Hr fuel) by lia.
  destruct (wait_outcome _ n) as [[] w2]; [by eexists _, _ | apply IH].
Qed.

(** With the budget of rounds as fuel the iteration over the known networks
    returns. *)
Lemma connectToNetwork_returns B fuel t w :
  clock_ok B -> registry_ok t ->
  0 <= _connectionTimeoutMs t -> _connectionTimeoutMs t + 3 * B < 2 ^ 32 ->
  (poll_budget t <= fuel)%nat ->
  exists r t' w', _connectToNetwork fuel t w = Some (r, t', w').
Proof.
  intros Hclk Hok Ht HB Hf.
  destruct (is_WL_CONNECTED (fst (WiFi_status w))) eqn:Hc.
  - unfold _connectToNetwork. destruct (WiFi_status w) as [s w0].
    simpl in Hc. rewrite Hc. by eexists _, _, _.
  - rewrite (connectToNetwork_in_order fuel t w Hok Hc).
    destruct (attempts_in_order_returns B fuel t (entries t) Hclk Ht HB Hf
                0%nat (snd (WiFi_status w))) as (res & w' & ->).
    destruct res; by eexists _, _, _.
Qed.

(** With the link already up [startup] returns at once and changes
    nothing. *)
Lemma startup_link_up fuel t w :
  is_WL_CONNECTED (fst (WiFi_status w)) = true ->
  startup fuel t w = Some (true, t, snd (WiFi_status w)).
Proof.
  intros Hc. unfold startup, _connectToNetwork.
  destruct (WiFi_status w) as [s w0]. simpl in Hc. by rewrite Hc.
Qed.

Lemma connected_setDisconnected t : connected (_setDisconnected t) = false.
Proof. unfold connected. simpl. by rewrite Z.eqb_refl. Qed.

Lemma registry_ok_small t :
  registry_ok t -> capacity_ceiling <= 256 -> _numKnownNetworks t <= 256.
Proof.
  intros Hok Hc. pose proof (ok_bound _ Hok).
  destruct (ok_capacity _ Hok) as [Hz | (k & _ & _ & Hk)]; lia.
Qed.

(** What the fallback records when the portal has learned a credential and
    the registry can take it. *)
Lemma startupAccessPoint_learns t w name secret :
  header_ok -> registry_ok t -> capacity_ceiling <= 256 ->
  portal (history w) (now w) = Some (name, secret) ->
  name ∈ names t \/ ~ registry_full t ->
  exists t',
    _startupAccessPoint t w =
      (true, t', tick (c_portal (_APSsid t) (_APPasswd t)) w) /\
    registry_ok t' /\
    entries t' = (if hasKnownNetwork t name then entries t
                  else entries t ++ [Network name secret]) /\
    lookupKnownNetwork t' name = _connectedIndex t' /\
    hasKnownNetwork t' name = true /\
    connected t' = true.
Proof.
  intros Hh Hok Hc Hp Hroom. unfold _startupAccessPoint, startConfigPortal.
  rewrite Hp.
  assert (forall t1 (i : nat),
            registry_ok t1 -> names t1 !! i = Some name ->
            registry_ok (_setConnected t1 (Z.of_nat i)) /\
            lookupKnownNetwork (_setConnected t1 (Z.of_nat i)) name
              = _connectedIndex (_setConnected t1 (Z.of_nat i)) /\
            hasKnownNetwork (_setConnected t1 (Z.of_nat i)) name = true /\
            connected (_setConnected t1 (Z.of_nat i)) = true) as Hset.
  { intros t1 i Hok1 Hi.
    assert (i < length (entries t1))%nat as Hlt.
    { apply lookup_lt_Some in Hi. unfold names in Hi.
      by rewrite length_fmap in Hi. }
    destruct (connected_at_position t1 i (proj2 Hh) Hok1
                (registry_ok_small t1 Hok1 Hc) Hlt) as [Hidx Hcon].
    split; [by apply registry_ok_set_connectedIndex|].
    change (lookupKnownNetwork (_setConnected t1 (Z.of_nat i)) name)
      with (lookupKnownNetwork t1 name).
    change (hasKnownNetwork (_setConnected t1 (Z.of_nat i)) name)
      with (hasKnownNetwork t1 name).
    rewrite Hidx. split; [by apply lookupKnownNetwork_at|].
    split; [|done]. apply (hasKnownNetwork_spec t1 name (proj2 Hh) Hok1).
    by eapply list_elem_of_lookup_2. }
  destruct (hasKnownNetwork t name) eqn:Hhas.
  - assert ((lookupKnownNetwork t name =? INDEX_DISCONNECTED) = false) as Hne.
    { unfold hasKnownNetwork in Hhas. by apply negb_true_iff in Hhas. }
    rewrite Hne.
    apply (hasKnownNetwork_spec t name (proj2 Hh) Hok) in Hhas.
    apply list_elem_of_lookup in Hhas as [i Hi].
    rewrite (lookupKnownNetwork_at t i name Hok Hi).
    eexists. split; [done|]. destruct (Hset t i Hok Hi) as (? & ? & ? & ?).
    done.
  - assert ((lookupKnownNetwork t name =? INDEX_DISCONNECTED) = true) as Heq.
    { unfold hasKnownNetwork in Hhas. by apply negb_false_iff in Hhas. }
    rewrite Heq.
    apply (hasKnownNetwork_false t name (proj2 Hh) Hok) in Hhas.
    destruct Hroom as [Hin|Hroom]; [done|].
    destruct (add_new t name secret Hh Hok Hhas Hroom) as (_ & Hok1 & He1).
    destruct (addKnownNetwork t name secret) as [ok t1]. simpl in Hok1, He1.
    assert (names t1 !! length (entries t) = Some name) as Hi.
    { unfold names. rewrite He1, fmap_app.
      rewrite lookup_app_r by (by rewrite length_fmap).
      by rewrite length_fmap, Nat.sub_diag. }
    assert (_numKnownNetworks t1 - 1 = Z.of_nat (length (entries t))) as ->.
    { rewrite <- (ok_count _ Hok1), He1, length_app. simpl. lia. }
    eexists. split; [done|].
    destruct (Hset t1 _ Hok1 Hi) as (? & ? & ? & ?). done.
Qed.


(** What the fallback records when the registry refuses the learned
    credential: the last position, which holds another network. *)
Lemma startupAccessPoint_full t w name secret :
  sentinel_ok -> registry_ok t ->
  portal (history w) (now w) = Some (name, secret) ->
  name ∉ names t -> registry_full t ->
  _startupAccessPoint t w =
    (true, _setConnected t (_numKnownNetworks t - 1),
     tick (c_portal (_APSsid t) (_APPasswd t)) w).
Proof.
  intros Hs Hok Hp Hnew Hfull. unfold _startupAccessPoint, startConfigPortal.
  rewrite Hp.
  assert ((lookupKnownNetwork t name =? INDEX_DISCONNECTED) = true) as ->.
  { apply (hasKnownNetwork_false t name Hs Hok) in Hnew.
    unfold hasKnownNetwork in Hnew. by apply negb_false_iff in Hnew. }
  by rewrite (add_full t name secret Hs Hok Hnew Hfull).
Qed.

(** Unless the link is up before the first attempt, [startup] returns true
    exactly when it leaves the object connected. *)
Lemma startup_connected_unless_link_up fuel t w r t' w' :
  header_ok -> registry_ok t -> capacity_ceiling <= 256 ->
  is_WL_CONNECTED (fst (WiFi_status w)) = false ->
  startup fuel t w = Some (r, t', w') ->
  connected t' = r.
Proof.
  intros Hh Hok Hc Hlink. unfold startup.
  rewrite (connectToNetwork_in_order fuel t w Hok Hlink).
  destruct (attempts_in_order fuel t 0 (entries t) (snd (WiFi_status w)))
    as [[[k|] w1]|] eqn:Hrun; cbn [connect_result]; [| |done].
  { intros [= <- <- <-].
    destruct (attempts_in_order_begins _ _ _ _ _ _ _ Hrun) as (j & _ & -> & Hj).
    apply connected_at_position;
      [apply Hh | done | by apply registry_ok_small | lia]. }
  set (t1 := _setDisconnected t).
  assert (registry_ok t1) as Hok1 by (by apply registry_ok_set_connectedIndex).
  assert (connected t1 = false) as Hdis by apply connected_setDisconnected.
  destruct (_accessPointEnabled t1); [|by intros [= <- <- <-]].
  destruct (portal (history w1) (now w1)) as [[name secret]|] eqn:Hp.
  - destruct (hasKnownNetwork t1 name) eqn:Hhas;
      [|destruct (registry_full_dec t1) as [Hfull|Hroom]].
    + apply (hasKnownNetwork_spec t1 name (proj2 Hh) Hok1) in Hhas.
      destruct (startupAccessPoint_learns t1 w1 name secret Hh Hok1 Hc Hp
                  (or_introl Hhas)) as (t2 & -> & _ & _ & _ & _ & Hcon).
      by intros [= <- <- <-].
    + apply (hasKnownNetwork_false t1 name (proj2 Hh) Hok1) in Hhas.
      rewrite (startupAccessPoint_full t1 w1 name secret (proj2 Hh) Hok1 Hp
                 Hhas Hfull).
      intros [= <- <- <-]. destruct Hfull as (Ha & Hn & _).
      pose proof (ok_count _ Hok1) as Hcnt.
      destruct (ok_capacity _ Hok1) as [?|(j & Hj & Hpow & _)]; [done|].
      assert (2 <= _allocatedKnownNetworks t1).
      { rewrite Hpow. change 2 with (2 ^ 1) at 1.
        apply Z.pow_le_mono_r; lia. }
      change (_numKnownNetworks t) with (_numKnownNetworks t1).
      replace (_numKnownNetworks t1 - 1)
        with (Z.of_nat (length (entries t1) - 1)) by lia.
      apply connected_at_position;
        [apply Hh | done | by apply registry_ok_small | lia].
    + destruct (startupAccessPoint_learns t1 w1 name secret Hh Hok1 Hc Hp
                  (or_intror Hroom)) as (t2 & -> & _ & _ & _ & _ & Hcon).
      by intros [= <- <- <-].
  - unfold _startupAccessPoint, startConfigPortal. rewrite Hp.
    by intros [= <- <- <-].
Qed.

End Startup.

(** * The statements at concrete objects *)

Lemma header_max2_ok : @header_ok header_max2.
Proof. split; [unfold growth_ok; simpl; lia | left; simpl; lia]. Qed.

Lemma header_max8_ok : @header_ok header_max8.
Proof.
  split; [unfold growth_ok; simpl; lia | right]. vm_compute. discriminate.
Qed.

Lemma registry_of_ok8 cs :
  Z.of_nat (length (first_occurrences [] (fst <$> cs))) <= 8 ->
  @registry_ok header_max8 (@registry_of header_max8 cs).
Proof.
  intros Hl. change 8 with (@capacity_ceiling header_max8) in Hl.
  by apply (@add_all_within header_max8 _ cs header_max8_ok
              (@new_WiFiBase_ok header_max8 false false)).
Qed.

(** C2 (the code at the failing input). A fresh object, a radio whose link is
    already up: [startup] returns true at the status check and the connected
    index is still [INDEX_DISCONNECTED], so [connected] is false. *)
Theorem startup_true_not_connected :
  @startup header_max8 link_up 1 (@new_WiFiBase header_max8 false false) boot
    = Some (true, @new_WiFiBase header_max8 false false, log c_status boot) /\
  @connected header_max8 (@new_WiFiBase header_max8 false false) = false.
Proof. split; vm_compute; reflexivity. Qed.

(** C7 (the code at the failing input). The registry holds A and B and is
    full, both are refused, the portal learns NewNet: [startup] returns true
    with connected index 1, the position of B; NewNet is not in the registry
    and the count is still 2. *)
Theorem startup_fallback_full_registry :
  exists t' w',
    @startup header_max2 portal_learns 1
      (snd (configureAccessPoint
              (@registry_of header_max2 [("A", "pwA"); ("B", "pwB")])
              "SetupAP" "appw")) boot = Some (true, t', w') /\
    _connectedIndex t' = 1 /\
    entries t' !! 1%nat = Some (Network "B" "pwB") /\
    @hasKnownNetwork header_max2 t' "NewNet" = false /\
    numKnownNetworks t' = 2.
Proof.
  eexists _, _. split; [vm_compute; reflexivity|].
  vm_compute. repeat split.
Qed.

(** The fallback on an empty registry, as the spec tells it. *)
Example startup_fallback_empty_registry :
  exists t' w',
    @startup header_max2 portal_learns 1
      (snd (configureAccessPoint (@new_WiFiBase header_max2 false false)
              "SetupAP" "appw")) boot = Some (true, t', w') /\
    @hasKnownNetwork header_max2 t' "NewNet" = true /\
    @lookupKnownNetwork header_max2 t' "NewNet" = _connectedIndex t' /\
    history w' = [c_portal (Some "SetupAP") (Some "appw"); c_status].
Proof.
  eexists _, _. split; [vm_compute; reflexivity|].
  vm_compute. repeat split.
Qed.

(** A value of [MAX_KNOWN_NETWORKS] the doubling array skips: with 3 the
    array grows from 2 to 4 slots before the count is compared with the
    constant again, and the registry takes a fourth name. *)
Example addKnownNetwork_beyond_max3 :
  @MAX_KNOWN_NETWORKS header_max3 = 3 /\
  numKnownNetworks (@registry_of header_max3 abc_calls) = 3 /\
  @hasKnownNetwork header_max3 (@registry_of header_max3 abc_calls) "D"
    = false /\
  fst (@addKnownNetwork header_max3 (@registry_of header_max3 abc_calls)
         "D" "pwD") = true /\
  numKnownNetworks
    (snd (@addKnownNetwork header_max3 (@registry_of header_max3 abc_calls)
            "D" "pwD")) = 4 /\
  fst (@add_all header_max3 (@new_WiFiBase header_max3 false false)
         abcd_calls) = [true; true; true; true].
Proof. vm_compute. repeat split. Qed.


(** Six calls with five distinct names and two doublings of the storage: c
    is at index 2 at the end and after the first four calls. *)
Lemma registry_tracks_distinct_names_witness :
  fst (@add_all header_max8 (@new_WiFiBase header_max8 false false)
         repeated_calls) = [true; true; true; true; true; true] /\
  numKnownNetworks
    (snd (@add_all header_max8 (@new_WiFiBase header_max8 false false)
            repeated_calls)) = 5 /\
  @lookupKnownNetwork header_max8
    (snd (@add_all header_max8 (@new_WiFiBase header_max8 false false)
            repeated_calls)) "c" = 2 /\
  @lookupKnownNetwork header_max8
    (snd (@add_all header_max8 (@new_WiFiBase header_max8 false false)
            (take 4 repeated_calls))) "c" = 2.
Proof.
  destruct (@registry_tracks_distinct_names header_max8
              (@new_WiFiBase header_max8 false false) repeated_calls
              (take 4 repeated_calls) (drop 4 repeated_calls) 2%nat "c")
    as (H1 & H2 & _ & H4 & _ & H6).
  - exact header_max8_ok.
  - apply new_WiFiBase_ok.
  - vm_compute. discriminate.
  - vm_compute; reflexivity.
  - vm_compute; reflexivity.
  - split; [exact H1|]. split; [exact H2|]. split; [exact H4|].
    apply H6. vm_compute; reflexivity.
Defined.

(** Re-adding B to the registry A, B, C. *)
Lemma addKnownNetwork_known_name_witness :
  @addKnownNetwork header_max8 (@registry_of header_max8 abc_calls)
    "B" "other"
  = (true, @registry_of header_max8 abc_calls) /\
  numKnownNetworks
    (snd (@addKnownNetwork header_max8 (@registry_of header_max8 abc_calls)
            "B" "other")) = 3.
Proof.
  destruct (@addKnownNetwork_known_name header_max8
              (@registry_of header_max8 abc_calls) "B" "other")
    as (H1 & H2 & H3 & _).
  - exact (proj2 header_max8_ok).
  - apply registry_of_ok8. vm_compute. discriminate.
  - apply list_elem_of_In. vm_compute. tauto.
  - split; [by apply injective_projections | exact H3].
Defined.

(** The registry A, B, C with a radio that accepts only B: A and B are
    requested, C is not, and the connected index is 1. *)
Lemma startup_priority_witness :
  @startup header_max8 only_B 1 (@registry_of header_max8 abc_calls) boot
    = Some (true,
            @_setConnected (@registry_of header_max8 abc_calls) 1,
            abc_world) /\
  @connected header_max8
    (@_setConnected (@registry_of header_max8 abc_calls) 1) = true /\
  attempted boot abc_world = [c_begin "A" "pwA"; c_begin "B" "pwB"].
Proof.
  pose proof (@startup_priority header_max8 only_B 1
                (@registry_of header_max8 abc_calls) boot (Some 1%nat)
                abc_world) as H.
  destruct H as (H1 & _ & _ & H4 & H5).
  - exact (proj2 header_max8_ok).
  - apply registry_of_ok8. vm_compute. discriminate.
  - vm_compute. discriminate.
  - vm_compute; reflexivity.
  - vm_compute; reflexivity.
  - split; [exact H1|]. split; [exact H4 | exact H5].
Defined.


(** The clocks of the examples. *)
Lemma sleep_only_clock accepts pending learned :
  @clock_ok (simulation accepts pending learned) 100.
Proof.
  intros h at_ms c Hc. destruct c; try discriminate Hc;
    try (split; [simpl; lia | discriminate]).
  apply Z.eqb_eq in Hc as ->. split; [simpl; lia | intros _; simpl; lia].
Qed.

Lemma slow_status_clock : @clock_ok A_hangs_B_accepts 100.
Proof.
  intros h at_ms c Hc. destruct c; try discriminate Hc;
    try (split; [simpl; lia | discriminate]).
  apply Z.eqb_eq in Hc as ->. split; [simpl; lia | intros _; simpl; lia].
Qed.

Lemma registry_ok_setConnectTimeoutMs {header : WiFiBase_h} t ms :
  registry_ok t -> registry_ok (snd (setConnectTimeoutMs t ms)).
Proof. intros Hok. by apply (registry_ok_ext _ t). Qed.

Lemma abc_500_ok : @registry_ok header_max8 abc_500.
Proof.
  unfold abc_500.
  apply (@registry_ok_setConnectTimeoutMs header_max8
           (@registry_of header_max8 abc_calls) 500).
  apply registry_of_ok8. vm_compute. discriminate.
Qed.

(** The registry A, B, C with a timeout of 500 ms, a request for A that never
    resolves and a status query that takes 1 ms: the wait for A returns false
    within its budget of polls, and [startup] goes on to B and returns true
    with connected index 1. *)
Lemma connectWait_bounded_poll_witness :
  (exists n : nat,
     (n < poll_budget abc_500)%nat /\
     forall fuel, (n < fuel)%nat ->
       exists w', @_connectWait A_hangs_B_accepts fuel abc_500 A_asked
                  = Some (false, w')) /\
  @startup header_max8 A_hangs_B_accepts 7 abc_500 boot
    = Some (true, @_setConnected abc_500 1, B_connected).
Proof.
  destruct (@connectWait_bounded_poll header_max8 A_hangs_B_accepts 100
              abc_500 A_asked slow_status_clock
              ltac:(vm_compute; discriminate)
              ltac:(vm_compute; reflexivity))
    as (n & _ & _ & _ & Hrun & _ & Hn & Hiter).
  split.
  - exists n. split; [exact Hn|].
    intros fuel Hf. rewrite (Hrun fuel Hf).
    destruct (@poll_status A_hangs_B_accepts
                (snd (@millis A_hangs_B_accepts A_asked)) n) eqn:Hs;
      try (eexists; reflexivity).
    exfalso. clear -Hs. unfold poll_status in Hs. simpl in Hs.
    assert (forall k, last_begin
              (history (@poll_world A_hangs_B_accepts
                          (snd (@millis A_hangs_B_accepts A_asked)) k))
            = Some (c_begin "A" "pwA")) as Hl.
    { intros k. induction k as [|k IH]; [reflexivity | exact IH]. }
    unfold simulated_radio in Hs. rewrite Hl in Hs. vm_compute in Hs.
    discriminate.
  - destruct (Hiter 7%nat boot 0%nat (Network "A" "pwA")
                (snd (@WiFi_status A_hangs_B_accepts boot)) A_given_up
                abc_500_ok
                ltac:(vm_compute; reflexivity)
                ltac:(vm_compute; reflexivity)
                ltac:(vm_compute; reflexivity)
                ltac:(vm_compute; reflexivity)) as (_ & Hnext & _).
    apply (Hnext (Network "B" "pwB") B_connected);
      vm_compute; reflexivity.
Defined.

(** The spec's timeout example: with a timeout of 500 ms and a request that
    never resolves, the wait gives up in the poll at 600 ms, after telling
    the radio to drop the attempt. *)
Example connectWait_timeout_500 :
  match @_connectWait A_hangs 7 timeout_500 A_requested with
  | Some (r, w') =>
      r = false /\ now w' = 600 /\ head (history w') = Some c_disconnect
  | None => False
  end.
Proof. vm_compute. repeat split. Qed.

(** The same wait when every status query takes a millisecond: the timeout
    is found exceeded one round earlier, 506 ms after the wait began. *)
Example connectWait_timeout_500_slow_status :
  match @_connectWait A_hangs_B_accepts 7 abc_500 A_asked with
  | Some (r, w') =>
      r = false /\ now w' - now A_asked = 506 /\
      head (history w') = Some c_disconnect
  | None => False
  end.
Proof. vm_compute. repeat split. Qed.

(** A fresh object, in background mode as constructed; [startup] has run
    and returned; [configBackground false] is then accepted and switches the
    background mode off. *)
Lemma configBackground_after_startup_witness :
  @startup header_max8 all_refused 1
    (@new_WiFiBase header_max8 false false) boot
  = Some (false,
          @_setDisconnected header_max8
            (@new_WiFiBase header_max8 false false),
          log c_status boot) /\
  _background
    (@_setDisconnected header_max8 (@new_WiFiBase header_max8 false false))
  = true /\
  fst (configBackground
         (@_setDisconnected header_max8
            (@new_WiFiBase header_max8 false false)) false) = true /\
  _background
    (snd (configBackground
            (@_setDisconnected header_max8
               (@new_WiFiBase header_max8 false false)) false)) = false.
Proof.
  destruct (@configBackground_after_startup header_max8 all_refused 1
              (@new_WiFiBase header_max8 false false) boot false
              (@_setDisconnected header_max8
                 (@new_WiFiBase header_max8 false false))
              (log c_status boot) false)
    as (_ & H2 & H3).
  - apply reach_new.
  - vm_compute; reflexivity.
  - split; [vm_compute; reflexivity|]. split; [vm_compute; reflexivity|].
    split; [by rewrite H2 | exact H3].
Defined.

(** An object with a configured access point: it can be reconfigured and
    disabled. *)
Lemma accessPointActive_never_set_witness :
  disableAccessPoint
    (snd (configureAccessPoint (@new_WiFiBase header_max8 false false)
            "SetupAP" "appw"))
  = (true,
     set_accessPointEnabled false
       (snd (configureAccessPoint (@new_WiFiBase header_max8 false false)
               "SetupAP" "appw"))) /\
  fst (configureAccessPoint
         (snd (configureAccessPoint (@new_WiFiBase header_max8 false false)
                 "SetupAP" "appw")) "Other" "pw2") = true.
Proof.
  destruct (@accessPointActive_never_set header_max8 portal_learns
              (snd (configureAccessPoint
                      (@new_WiFiBase header_max8 false false)
                      "SetupAP" "appw")) "Other" "pw2" boot)
    as (_ & _ & H3 & H4).
  - apply reach_configureAccessPoint, reach_new.
  - split; [exact H4 | by rewrite H3].
Defined.

(** * Further properties of the registry *)

Section RegistryMore.
Context {header : WiFiBase_h}.

Lemma lookup_known t name :
  sentinel_ok -> registry_ok t -> name ∈ names t ->
  exists (i : nat) e,
    lookupKnownNetwork t name = Z.of_nat i /\
    (i < length (entries t))%nat /\
    entries t !! i = Some e /\ ssid e = name.
Proof.
  intros Hs Hok Hin. rewrite lookupKnownNetwork_spec by done.
  destruct (position name (entries t)) as [i|] eqn:Hp.
  - destruct (position_Some _ _ _ Hp) as (Hi & e & He & Hn). by exists i, e.
  - by apply position_None in Hp.
Qed.

Lemma add_entries_cases t name secret :
  header_ok -> registry_ok t ->
  snd (addKnownNetwork t name secret) = t \/
  ((name ∉ names t) /\ fst (addKnownNetwork t name secret) = true /\
   entries (snd (addKnownNetwork t name secret))
     = entries t ++ [Network name secret]).
Proof.
  intros Hh Hok. destruct (hasKnownNetwork t name) eqn:Hhas.
  - apply (hasKnownNetwork_spec t name (proj2 Hh) Hok) in Hhas.
    left. by rewrite add_present by (done || apply Hh).
  - apply (hasKnownNetwork_false t name (proj2 Hh) Hok) in Hhas.
    destruct (registry_full_dec t) as [Hf|Hf].
    + left. by rewrite add_full by (done || apply Hh).
    + right. by destruct (add_new t name secret Hh Hok Hhas Hf) as (? & ? & ?).
Qed.

(** X1. Every state the constructor and the public functions produce keeps
    the registry well formed: no name is stored twice, the count is the
    number of stored credentials and lies between 0 and the allocation, the
    array has as many slots as were allocated, and the allocation never
    exceeds the ceiling. *)
Theorem reachable_registry_invariant t :
  header_ok -> reachable t ->
  NoDup (names t) /\
  numKnownNetworks t = Z.of_nat (length (entries t)) /\
  0 <= numKnownNetworks t <= _allocatedKnownNetworks t /\
  _allocatedKnownNetworks t <= capacity_ceiling /\
  Z.of_nat (length (_knownNetworks t)) = _allocatedKnownNetworks t.
Proof.
  intros Hh Hr. pose proof (reachable_registry_ok t Hh Hr) as Hok.
  pose proof (ok_count _ Hok) as Hc. pose proof (ok_bound _ Hok) as Hb.
  pose proof ceiling_ge_2. unfold numKnownNetworks.
  split; [apply (ok_distinct _ Hok)|]. split; [done|]. split; [lia|].
  split.
  { destruct (ok_capacity _ Hok) as [?|(k & _ & _ & ?)]; lia. }
  rewrite (ok_slots _ Hok), length_app, length_fmap, length_replicate. lia.
Qed.

(** X2. [hasKnownNetwork] is true exactly for the stored names; for a stored
    name [lookupKnownNetwork] returns a position below the count whose
    credential has that name, and for any other it returns
    [INDEX_DISCONNECTED]. *)
Theorem hasKnownNetwork_iff_stored t name :
  sentinel_ok -> registry_ok t ->
  (hasKnownNetwork t name = true <-> name ∈ names t) /\
  (name ∈ names t ->
   0 <= lookupKnownNetwork t name < numKnownNetworks t /\
   exists e, entries t !! Z.to_nat (lookupKnownNetwork t name) = Some e /\
             ssid e = name) /\
  (name ∉ names t -> lookupKnownNetwork t name = INDEX_DISCONNECTED).
Proof.
  intros Hs Hok. split; [by apply hasKnownNetwork_spec|]. split.
  - intros Hin. destruct (lookup_known t name Hs Hok Hin)
      as (i & e & -> & Hi & He & Hn).
    pose proof (ok_count _ Hok). unfold numKnownNetworks.
    split; [lia|]. exists e. by rewrite Nat2Z.id.
  - intros Hnot. rewrite lookupKnownNetwork_spec by done.
    apply position_None in Hnot. by rewrite Hnot.
Qed.

(** X3. After a call of [addKnownNetwork] that returned true the name is
    known and is looked up at a position that holds it.  A name that was new
    sits at the former count with the secret given; for a name that was
    already stored nothing changes, so a different secret passed with it is
    not taken over. *)
Theorem addKnownNetwork_then_lookup t name secret :
  header_ok -> registry_ok t ->
  fst (addKnownNetwork t name secret) = true ->
  hasKnownNetwork (snd (addKnownNetwork t name secret)) name = true /\
  (exists e,
     entries (snd (addKnownNetwork t name secret))
       !! Z.to_nat (lookupKnownNetwork (snd (addKnownNetwork t name secret))
                      name) = Some e /\
     ssid e = name /\ (name ∉ names t -> passwd e = secret)) /\
  (name ∉ names t ->
   lookupKnownNetwork (snd (addKnownNetwork t name secret)) name
     = numKnownNetworks t) /\
  (name ∈ names t -> snd (addKnownNetwork t name secret) = t).
Proof.
  intros Hh Hok Hret.
  pose proof (registry_ok_add t name secret Hh Hok) as Hok'.
  destruct (hasKnownNetwork t name) eqn:Hhas.
  - apply (hasKnownNetwork_spec t name (proj2 Hh) Hok) in Hhas.
    rewrite (add_present t name secret (proj2 Hh) Hok Hhas). simpl.
    split; [by apply hasKnownNetwork_spec; [apply Hh|..]|].
    destruct (lookup_known t name (proj2 Hh) Hok Hhas)
      as (i & e & -> & Hi & He & Hn).
    split; [exists e; by rewrite Nat2Z.id|]. done.
  - apply (hasKnownNetwork_false t name (proj2 Hh) Hok) in Hhas.
    destruct (registry_full_dec t) as [Hf|Hf].
    { rewrite (add_full t name secret (proj2 Hh) Hok Hhas Hf) in Hret. done. }
    destruct (add_new t name secret Hh Hok Hhas Hf) as (_ & _ & He).
    set (t' := snd (addKnownNetwork t name secret)) in *.
    assert (names t' !! length (entries t) = Some name) as Hi.
    { unfold names. rewrite He, fmap_app.
      rewrite lookup_app_r by (by rewrite length_fmap).
      by rewrite length_fmap, Nat.sub_diag. }
    assert (lookupKnownNetwork t' name = Z.of_nat (length (entries t))) as Hl
      by (by apply lookupKnownNetwork_at).
    split.
    { apply (hasKnownNetwork_spec t' name (proj2 Hh) Hok').
      by eapply list_elem_of_lookup_2. }
    rewrite Hl, Nat2Z.id. split.
    { exists (Network name secret). rewrite He.
      rewrite lookup_app_r by done. by rewrite Nat.sub_diag. }
    split; [intros _; apply (ok_count _ Hok) | done].
Qed.

(** X4. [addKnownNetwork] does not disturb what is stored: whatever it
    returns, every name other than the one passed, and the one passed too if
    it was already stored, is looked up at the same index as before. *)
Theorem addKnownNetwork_keeps_lookups t name secret other :
  header_ok -> registry_ok t ->
  other <> name \/ other ∈ names t ->
  lookupKnownNetwork (snd (addKnownNetwork t name secret)) other
    = lookupKnownNetwork t other /\
  hasKnownNetwork (snd (addKnownNetwork t name secret)) other
    = hasKnownNetwork t other.
Proof.
  intros Hh Hok Hother.
  assert (lookupKnownNetwork (snd (addKnownNetwork t name secret)) other
          = lookupKnownNetwork t other) as Hl.
  { pose proof (registry_ok_add t name secret Hh Hok) as Hok'.
    destruct (add_entries_cases t name secret Hh Hok) as [->|(Hnew & _ & He)];
      [done|].
    rewrite !lookupKnownNetwork_spec by done. rewrite He.
    destruct (position other (entries t)) as [i|] eqn:Hp.
    - by rewrite (position_app_l _ _ _ _ Hp).
    - rewrite position_app_r by done. simpl.
      destruct (String.eqb_spec name other) as [<-|]; [|done].
      apply position_None in Hp. destruct Hother; done. }
  split; [done|]. unfold hasKnownNetwork. by rewrite Hl.
Qed.

(** X5. Whatever value [MAX_KNOWN_NETWORKS] has, a new name is refused
    exactly when the count equals the ceiling, the smallest of 2, 4, 8, ...
    that is at least [MAX_KNOWN_NETWORKS]; the count never exceeds it, and
    the ceiling is below twice [MAX_KNOWN_NETWORKS] when that is at least
    2. *)
Theorem addKnownNetwork_refused_at_ceiling t name secret :
  header_ok -> registry_ok t -> name ∉ names t ->
  (fst (addKnownNetwork t name secret) = false <->
   numKnownNetworks t = capacity_ceiling) /\
  numKnownNetworks t <= capacity_ceiling /\
  MAX_KNOWN_NETWORKS <= capacity_ceiling /\
  (2 <= MAX_KNOWN_NETWORKS -> capacity_ceiling < 2 * MAX_KNOWN_NETWORKS).
Proof.
  intros Hh Hok Hnew. pose proof (registry_full_iff_ceiling t Hok) as Hfull.
  split; [|split; [|split; [apply max_le_ceiling|]]].
  - unfold numKnownNetworks. destruct (registry_full_dec t) as [Hf|Hf].
    + rewrite (add_full t name secret (proj2 Hh) Hok Hnew Hf). simpl.
      split; [intros _; by apply Hfull | done].
    + destruct (add_new t name secret Hh Hok Hnew Hf) as (-> & _).
      split; [done | intros Hc; by destruct (Hf (proj2 Hfull Hc))].
  - pose proof (ok_bound _ Hok). pose proof ceiling_ge_2.
    pose proof (ok_count _ Hok). unfold numKnownNetworks.
    destruct (ok_capacity _ Hok) as [?|(k & _ & _ & ?)]; lia.
  - intros H2. unfold capacity_ceiling.
    assert (1 < MAX_KNOWN_NETWORKS) as H1 by lia.
    pose proof (Z.log2_up_spec MAX_KNOWN_NETWORKS H1) as [Hlo _].
    assert (0 < Z.log2_up MAX_KNOWN_NETWORKS)
      by (apply Z.log2_up_pos; lia).
    replace (Z.log2_up MAX_KNOWN_NETWORKS)
      with (Z.succ (Z.pred (Z.log2_up MAX_KNOWN_NETWORKS))) by lia.
    rewrite Z.pow_succ_r by lia. lia.
Qed.

End RegistryMore.

(** * Further properties of [startup] *)

Section StartupMore.
Context {header : WiFiBase_h} {env : Collaborators}.

Lemma startupAccessPoint_world t w :
  snd (_startupAccessPoint t w) = tick (c_portal (_APSsid t) (_APPasswd t)) w.
Proof.
  unfold _startupAccessPoint, startConfigPortal.
  destruct (portal _ _) as [[name secret]|]; [|done].
  destruct (_ =? _); [|done]. by destruct (addKnownNetwork t name secret).
Qed.

Lemma startupAccessPoint_refused t w t' w' :
  _startupAccessPoint t w = (false, t', w') -> t' = t.
Proof.
  unfold _startupAccessPoint, startConfigPortal.
  destruct (portal _ _) as [[name secret]|]; [|by intros [= <- _]].
  destruct (_ =? _); [|done]. by destruct (addKnownNetwork t name secret).
Qed.

Lemma connect_loop_false fuel todo :
  forall index t w t' w',
  connect_loop fuel todo index t w = Some (false, t', w') ->
  t' = _setDisconnected t.
Proof.
  induction todo as [|todo IH]; intros index t w t' w'.
  { by intros [= <- <-]. }
  cbn [connect_loop].
  destruct (_knownNetworks t !! Z.to_nat index) as [[e|]|]; [|done|done].
  destruct (_connectWait fuel t _) as [[[] w2]|]; [done | apply IH | done].
Qed.

Lemma connectToNetwork_false fuel t w t' w' :
  _connectToNetwork fuel t w = Some (false, t', w') ->
  t' = _setDisconnected t.
Proof.
  unfold _connectToNetwork. destruct (WiFi_status w) as [s w0].
  destruct (is_WL_CONNECTED s); [done|].
  destruct (negb _); [|by intros [= <- <-]].
  destruct (_knownNetworks t !! Z.to_nat 0) as [[e|]|]; [|done|done].
  destruct (is_empty_cstr (ssid e)); [|apply connect_loop_false].
  destruct (_connectWait fuel t _) as [[[] w2]|];
    [done | apply connect_loop_false | done].
Qed.

(** X7. A [startup] that returns false leaves the object as it was except
    for the connected index, which is [INDEX_DISCONNECTED]: [connected] is
    false, and the registry and the settings are untouched. *)
Theorem startup_failure_resets fuel t w t' w' :
  startup fuel t w = Some (false, t', w') ->
  t' = _setDisconnected t /\
  _connectedIndex t' = INDEX_DISCONNECTED /\
  connected t' = false /\
  entries t' = entries t /\ settings t' = settings t.
Proof.
  intros Hrun.
  assert (t' = _setDisconnected t) as ->.
  { unfold startup in Hrun.
    destruct (_connectToNetwork fuel t w) as [[[[] t1] w1]|] eqn:Hnet;
      [done | | done].
    apply connectToNetwork_false in Hnet as ->.
    destruct (_accessPointEnabled _); [|by injection Hrun as <- _].
    destruct (_startupAccessPoint _ w1) as [[[] t2] w2] eqn:Hap; [done|].
    apply startupAccessPoint_refused in Hap. by injection Hrun as <- _. }
  split; [done|]. split; [done|].
  split; [apply connected_setDisconnected | done].
Qed.

Lemma add_all_prefix t cs :
  header_ok -> registry_ok t ->
  registry_ok (snd (add_all t cs)) /\
  entries t `prefix_of` entries (snd (add_all t cs)).
Proof.
  intros Hh. revert t. induction cs as [|[n s] cs IH]; intros t Hok;
    [simpl; split; [assumption | reflexivity]|].
  cbn [add_all].
  pose proof (registry_ok_add t n s Hh Hok) as Hok1.
  pose proof (add_entries_cases t n s Hh Hok) as Hcase.
  destruct (addKnownNetwork t n s) as [r t1]. simpl in Hok1, Hcase.
  destruct (IH t1 Hok1) as [Hok2 Hp].
  destruct (add_all t1 cs) as [rs t2]. simpl in *. split; [done|].
  etrans; [|exact Hp].
  destruct Hcase as [->|(_ & _ & ->)]; [done | by apply prefix_app_r].
Qed.

Lemma startupAccessPoint_entries t w :
  header_ok -> registry_ok t ->
  entries t `prefix_of` entries (snd (fst (_startupAccessPoint t w))) /\
  (length (entries (snd (fst (_startupAccessPoint t w))))
   <= S (length (entries t)))%nat.
Proof.
  intros Hh Hok. unfold _startupAccessPoint, startConfigPortal.
  destruct (portal _ _) as [[name secret]|];
    [|split; [reflexivity | apply Nat.le_succ_diag_r]].
  destruct (_ =? _); [|split; [reflexivity | apply Nat.le_succ_diag_r]].
  pose proof (add_entries_cases t name secret Hh Hok) as Hcase.
  destruct (addKnownNetwork t name secret) as [ok t1]. simpl in *.
  change (entries (_setConnected t1 (_numKnownNetworks t1 - 1)))
    with (entries t1).
  destruct Hcase as [->|(_ & _ & ->)]; [split; [reflexivity | lia]|].
  split; [by apply prefix_app_r | rewrite length_app; simpl; lia].
Qed.

(** X6. [startup] only ever appends to the registry: the credentials stored
    before the call are still there afterwards, at the same positions, at
    most one credential is added, the registry stays well formed, and no
    setting changes. *)
Theorem startup_append_only fuel t w r t' w' :
  header_ok -> registry_ok t ->
  startup fuel t w = Some (r, t', w') ->
  entries t `prefix_of` entries t' /\
  (length (entries t') <= S (length (entries t)))%nat /\
  registry_ok t' /\
  settings t' = settings t.
Proof.
  intros Hh Hok Hrun.
  split; [|split; [|split; [by eapply startup_registry_ok
                           | by eapply startup_settings]]].
  all: unfold startup in Hrun.
  all: destruct (_connectToNetwork fuel t w) as [[[r1 t1] w1]|] eqn:Hnet;
         [|done].
  all: apply connectToNetwork_frame in Hnet as [_ Hreg].
  all: assert (entries t1 = entries t) as He
         by (unfold entries, registry in *; by injection Hreg as -> _ ->).
  all: assert (registry_ok t1) as Hok1 by (by apply (registry_ok_ext t1 t)).
  all: destruct r1; [injection Hrun as <- <- <-; rewrite He; done || lia|].
  all: destruct (_accessPointEnabled t1);
         [|injection Hrun as <- <- <-; rewrite He; done || lia].
  all: destruct (startupAccessPoint_entries t1 w1 Hh Hok1) as [Hp Hl].
  all: destruct (_startupAccessPoint t1 w1) as [[up t2] w2]; simpl in Hp, Hl.
  all: rewrite He in Hp, Hl.
  all: destruct up; injection Hrun as <- <- <-; done.
Qed.

End StartupMore.

Section Timing.
Context {header : WiFiBase_h} {env : Collaborators}.

Lemma timed_attempt_call i e : timed (attempt_call i e) = true.
Proof. unfold attempt_call, literal. by destruct (_ && _). Qed.

(** The time a wait takes: the timeout and at most five calls more. *)
Lemma wait_time B fuel t w r w' :
  clock_ok B ->
  0 <= _connectionTimeoutMs t -> _connectionTimeoutMs t + 3 * B < 2 ^ 32 ->
  _connectWait fuel t w = Some (r, w') ->
  now w <= now w' <= now w + _connectionTimeoutMs t + 5 * B.
Proof.
  intros Hc Ht HB Hw.
  destruct (connectWait_returns B t w Hc Ht HB)
    as (n & Hn & Hbefore & _ & Hret).
  assert (n < fuel)%nat as Hf.
  { destruct (Nat.lt_ge_cases n fuel) as [|Hge]; [done|]. exfalso.
    change (connectWait_loop fuel (_connectionTimeoutMs t) (fst (millis w))
              (snd (millis w)) = Some (r, w')) in Hw.
    pose proof (connectWait_loop_rounds (_connectionTimeoutMs t)
                  (fst (millis w)) (snd (millis w)) fuel 0 0) as Hr.
    cbn [poll_world Nat.add] in Hr. rewrite Nat.add_0_r in Hr.
    rewrite Hr in Hw; [done|]. intros k Hk. apply Hbefore. lia. }
  rewrite (Hret fuel Hf) in Hw. injection Hw as Hw.
  assert (forall j, (j < n)%nat -> elapsed w j <= _connectionTimeoutMs t)
    as Hearlier by (intros j Hj; by apply Hbefore).
  destruct (elapsed_exact B _ w n Hc Ht HB Hearlier) as [_ Hle].
  pose proof (read_at_lower B w n Hc) as Hlow.
  pose proof (clock_bound B Hc) as HB0.
  unfold read_at in Hle, Hlow. unfold wait_outcome in Hw.
  set (u := snd (WiFi_status (poll_world (snd (millis w)) n))) in *.
  pose proof (now_tick B c_millis u Hc eq_refl).
  pose proof (now_tick B c_disconnect (tick c_millis u) Hc eq_refl).
  assert (w' = u \/ w' = tick c_disconnect (tick c_millis u)) as [-> | ->].
  { destruct (is_WL_CONNECTED _); [left; by injection Hw|].
    destruct (is_WL_CONNECT_FAILED _); [left; by injection Hw|].
    right. by injection Hw. }
  all: lia.
Qed.

(** X8. A wait that returns has taken no longer than the timeout and the
    time of five calls: the clock has advanced by at most
    [_connectionTimeoutMs + 5 * B], where no call of the wait takes longer
    than [B] ms and a sleep of 100 ms takes at least 100 ms. *)
Theorem connectWait_duration B fuel t w r w' :
  clock_ok B ->
  0 <= _connectionTimeoutMs t -> _connectionTimeoutMs t + 3 * B < 2 ^ 32 ->
  _connectWait fuel t w = Some (r, w') ->
  now w <= now w' <= now w + _connectionTimeoutMs t + 5 * B.
Proof. apply wait_time. Qed.

Lemma attempts_time B fuel t es :
  clock_ok B ->
  0 <= _connectionTimeoutMs t -> _connectionTimeoutMs t + 3 * B < 2 ^ 32 ->
  forall i w res w',
  attempts_in_order fuel t i es w = Some (res, w') ->
  now w <= now w' <=
    now w + Z.of_nat (length es) * (_connectionTimeoutMs t + 6 * B).
Proof.
  intros Hc Ht HB. pose proof (clock_bound B Hc) as HB0.
  induction es as [|e es IH]; intros i w res w'.
  { intros [= <- <-]. simpl. lia. }
  cbn [attempts_in_order]. unfold attempt.
  pose proof (now_tick B (attempt_call i e) w Hc (timed_attempt_call i e)).
  destruct (_connectWait fuel t _) as [[[] w2]|] eqn:Hw; [| |done].
  - intros [= <- <-]. pose proof (wait_time B _ _ _ _ _ Hc Ht HB Hw).
    cbn [length]. nia.
  - intros Hrest. apply IH in Hrest.
    pose proof (wait_time B _ _ _ _ _ Hc Ht HB Hw). cbn [length]. nia.
Qed.

(** X9. With the access point disabled and a timeout the 32-bit clock can
    exceed, [startup] returns, and the time it has taken is at most that of
    the status check and, for each known network, of the request and one
    wait. *)
Theorem startup_returns_in_time B fuel t w :
  clock_ok B -> registry_ok t ->
  0 <= _connectionTimeoutMs t -> _connectionTimeoutMs t + 3 * B < 2 ^ 32 ->
  (poll_budget t <= fuel)%nat ->
  _accessPointEnabled t = false ->
  exists r t' w',
    startup fuel t w = Some (r, t', w') /\
    now w <= now w' <=
      now w + B + numKnownNetworks t * (_connectionTimeoutMs t + 6 * B).
Proof.
  intros Hc Hok Ht HB Hf Hap. pose proof (clock_bound B Hc) as HB0.
  destruct (connectToNetwork_returns B fuel t w Hc Hok Ht HB Hf)
    as (r & t' & w' & Hrun).
  exists r, t', w'.
  assert (_accessPointEnabled t' = false) as Hap'.
  { apply connectToNetwork_frame in Hrun as [Hs _]. unfold settings in Hs.
    injection Hs as _ _ _ _ -> _ _. done. }
  split.
  { unfold startup. rewrite Hrun. destruct r; [done|]. by rewrite Hap'. }
  unfold numKnownNetworks. rewrite <- (ok_count _ Hok).
  pose proof (now_tick B c_status w Hc eq_refl) as Hst.
  pose proof (Nat2Z.is_nonneg (length (entries t))).
  destruct (is_WL_CONNECTED (fst (WiFi_status w))) eqn:Hlink.
  - unfold _connectToNetwork, WiFi_status in *. cbn [fst] in Hlink.
    cbv beta iota in Hrun. rewrite Hlink in Hrun.
    injection Hrun as _ _ <-. nia.
  - rewrite (connectToNetwork_in_order fuel t w Hok Hlink) in Hrun.
    destruct (attempts_in_order _ _ _ _ _) as [[res w2]|] eqn:Hrun';
      [|done].
    apply (attempts_time B _ _ _ Hc Ht HB) in Hrun'.
    unfold WiFi_status in Hrun'. cbn [snd] in Hrun'.
    destruct res; injection Hrun as _ _ <-; lia.
Qed.

End Timing.

Section Fallback.
Context {header : WiFiBase_h} {env : Collaborators}.

(** X10. When [startup] returns true after the link was not up at its first
    status check, the connected index is a position of the registry: it lies
    below the count and a credential is stored there. *)
Theorem startup_index_valid fuel t w t' w' :
  header_ok -> registry_ok t -> capacity_ceiling <= 256 ->
  is_WL_CONNECTED (fst (WiFi_status w)) = false ->
  startup fuel t w = Some (true, t', w') ->
  0 <= _connectedIndex t' < numKnownNetworks t' /\
  exists e, entries t' !! Z.to_nat (_connectedIndex t') = Some e.
Proof.
  intros Hh Hok Hc Hlink Hrun.
  pose proof (startup_registry_ok _ _ _ _ _ _ Hh Hok Hrun) as Hok'.
  assert (0 <= _connectedIndex t' < numKnownNetworks t') as Hidx.
  { unfold numKnownNetworks. unfold startup in Hrun.
    rewrite (connectToNetwork_in_order fuel t w Hok Hlink) in Hrun.
    destruct (attempts_in_order fuel t 0 (entries t) (snd (WiFi_status w)))
      as [[[k|] w1]|] eqn:Hat; cbn [connect_result] in Hrun; [| |done].
    { injection Hrun as <- <-.
      destruct (attempts_in_order_begins _ _ _ _ _ _ _ Hat)
        as (j & _ & -> & Hj).
      destruct (connected_at_position t (0 + j - 1) (proj2 Hh) Hok
                  (registry_ok_small t Hok Hc) ltac:(lia)) as [-> _].
      change (_numKnownNetworks (_setConnected t (Z.of_nat (0 + j - 1))))
        with (_numKnownNetworks t).
      rewrite <- (ok_count _ Hok). lia. }
    set (t1 := _setDisconnected t) in *.
    assert (registry_ok t1) as Hok1
      by (by apply registry_ok_set_connectedIndex).
    destruct (_accessPointEnabled t1); [|done].
    destruct (portal (history w1) (now w1)) as [[name secret]|] eqn:Hp.
    - destruct (hasKnownNetwork t1 name) eqn:Hhas;
        [|destruct (registry_full_dec t1) as [Hfull|Hroom]].
      + apply (hasKnownNetwork_spec t1 name (proj2 Hh) Hok1) in Hhas.
        destruct (startupAccessPoint_learns t1 w1 name secret Hh Hok1 Hc Hp
                    (or_introl Hhas)) as (t2 & Hap & Hok2 & _ & Hl & Hk & _).
        rewrite Hap in Hrun. injection Hrun as <- <-.
        apply (hasKnownNetwork_spec t2 name (proj2 Hh) Hok2) in Hk.
        destruct (lookup_known t2 name (proj2 Hh) Hok2 Hk)
          as (i & e & Hi & Hlt & _).
        rewrite <- Hl, Hi, <- (ok_count _ Hok2). lia.
      + apply (hasKnownNetwork_false t1 name (proj2 Hh) Hok1) in Hhas.
        rewrite (startupAccessPoint_full t1 w1 name secret (proj2 Hh) Hok1 Hp
                   Hhas Hfull) in Hrun.
        injection Hrun as <- <-. destruct Hfull as (Ha & Hn & _).
        pose proof (ok_count _ Hok1) as Hcnt.
        destruct (ok_capacity _ Hok1) as [?|(j & Hj & Hpow & _)]; [done|].
        assert (2 <= _allocatedKnownNetworks t1).
        { rewrite Hpow. change 2 with (2 ^ 1) at 1.
          apply Z.pow_le_mono_r; lia. }
        destruct (connected_at_position t1 (length (entries t1) - 1)
                    (proj2 Hh) Hok1 (registry_ok_small t1 Hok1 Hc)
                    ltac:(lia)) as [Hci _].
        assert (forall x, x = Z.of_nat (length (entries t1) - 1) ->
                  0 <= _connectedIndex (_setConnected t1 x)
                    < _numKnownNetworks t1) as Hgen
          by (intros x ->; rewrite Hci; lia).
        apply (Hgen (_numKnownNetworks t1 - 1)). lia.
      + destruct (startupAccessPoint_learns t1 w1 name secret Hh Hok1 Hc Hp
                    (or_intror Hroom)) as (t2 & Hap & Hok2 & _ & Hl & Hk & _).
        rewrite Hap in Hrun. injection Hrun as <- <-.
        apply (hasKnownNetwork_spec t2 name (proj2 Hh) Hok2) in Hk.
        destruct (lookup_known t2 name (proj2 Hh) Hok2 Hk)
          as (i & e & Hi & Hlt & _).
        rewrite <- Hl, Hi, <- (ok_count _ Hok2). lia.
    - unfold _startupAccessPoint, startConfigPortal in Hrun.
      rewrite Hp in Hrun. done. }
  split; [done|]. apply lookup_lt_is_Some_2.
  unfold numKnownNetworks in Hidx. rewrite <- (ok_count _ Hok') in Hidx. lia.
Qed.

Lemma connectWait_loop_portals fuel timeout start w r w' :
  connectWait_loop fuel timeout start w = Some (r, w') ->
  portals (history w') = portals (history w).
Proof.
  revert w. induction fuel as [|fuel IH]; intros w; [done|].
  cbn [connectWait_loop]. unfold WiFi_status, millis. cbv beta iota.
  destruct (is_WL_CONNECTED _); [by intros [= <- <-]|].
  destruct (is_WL_CONNECT_FAILED _); [by intros [= <- <-]|].
  destruct (_ <? _); [by intros [= <- <-]|].
  intros Hw. by rewrite (IH _ Hw).
Qed.

Lemma connectWait_portals fuel t w r w' :
  _connectWait fuel t w = Some (r, w') ->
  portals (history w') = portals (history w).
Proof.
  unfold _connectWait, millis. cbv beta iota. intros Hw.
  by rewrite (connectWait_loop_portals _ _ _ _ _ _ Hw).
Qed.

Lemma connect_loop_portals fuel todo :
  forall index t w r t' w',
  connect_loop fuel todo index t w = Some (r, t', w') ->
  portals (history w') = portals (history w).
Proof.
  induction todo as [|todo IH]; intros index t w r t' w'.
  { by intros [= <- <- <-]. }
  cbn [connect_loop].
  destruct (_knownNetworks t !! Z.to_nat index) as [[e|]|]; [|done|done].
  destruct (_connectWait fuel t _) as [[[] w2]|] eqn:Hw; [| |done].
  - intros [= <- <- <-]. by rewrite (connectWait_portals _ _ _ _ _ Hw).
  - intros Hl. rewrite (IH _ _ _ _ _ _ Hl).
    by rewrite (connectWait_portals _ _ _ _ _ Hw).
Qed.

Lemma connectToNetwork_portals fuel t w r t' w' :
  _connectToNetwork fuel t w = Some (r, t', w') ->
  portals (history w') = portals (history w).
Proof.
  unfold _connectToNetwork, WiFi_status. cbv beta iota.
  destruct (is_WL_CONNECTED _); [by intros [= <- <- <-]|].
  destruct (negb _); [|by intros [= <- <- <-]].
  destruct (_knownNetworks t !! Z.to_nat 0) as [[e|]|]; [|done|done].
  destruct (is_empty_cstr (ssid e)).
  - destruct (_connectWait fuel t _) as [[[] w2]|] eqn:Hw; [| |done].
    + intros [= <- <- <-]. by rewrite (connectWait_portals _ _ _ _ _ Hw).
    + intros Hl. rewrite (connect_loop_portals _ _ _ _ _ _ _ _ Hl).
      by rewrite (connectWait_portals _ _ _ _ _ Hw).
  - intros Hl. by rewrite (connect_loop_portals _ _ _ _ _ _ _ _ Hl).
Qed.

(** The config portal in a run of [startup]: never started with the access
    point disabled; started at most once, with the configured name and
    secret, after every other call the history records; and always started
    before a failure when the access point is enabled. *)
Lemma startup_portals fuel t w r t' w' :
  startup fuel t w = Some (r, t', w') ->
  (_accessPointEnabled t = false ->
   portals (history w') = portals (history w)) /\
  (portals (history w') = portals (history w) \/
   exists h, history w' = c_portal (_APSsid t) (_APPasswd t) :: h /\
             portals h = portals (history w)) /\
  (r = false -> _accessPointEnabled t = true ->
   exists h, history w' = c_portal (_APSsid t) (_APPasswd t) :: h /\
             portals h = portals (history w)).
Proof.
  unfold startup.
  destruct (_connectToNetwork fuel t w) as [[[r1 t1] w1]|] eqn:Hnet; [|done].
  pose proof (connectToNetwork_portals _ _ _ _ _ _ Hnet) as Hp.
  apply connectToNetwork_frame in Hnet as [Hset _].
  unfold settings in Hset. injection Hset as _ Hs Hpw _ Hen _ _.
  destruct r1.
  { intros [= <- <- <-]. split; [done|]. split; [by left | done]. }
  rewrite Hen. destruct (_accessPointEnabled t).
  - pose proof (startupAccessPoint_world t1 w1) as Hw.
    rewrite Hs, Hpw in Hw.
    destruct (_startupAccessPoint t1 w1) as [[up t2] w2]. simpl in Hw.
    assert (exists h, history w2 = c_portal (_APSsid t) (_APPasswd t) :: h /\
                      portals h = portals (history w)) as Hex
      by (exists (history w1); by rewrite Hw).
    destruct up; intros [= <- <- <-];
      (split; [done|]; split; [by right | done]).
  - intros [= <- <- <-]. split; [done|]. split; [by left | done].
Qed.

(** X11. [startup] starts the config portal only with the access point
    enabled, at most once, and with the configured name and secret; with the
    access point enabled it does not return false without having started it,
    and the failed portal start is then the last call of the run. *)
Theorem startup_portal_only_when_enabled fuel t w r t' w' :
  startup fuel t w = Some (r, t', w') ->
  (_accessPointEnabled t = false ->
   portals (history w') = portals (history w)) /\
  (portals (history w') = portals (history w) \/
   portals (history w')
   = c_portal (_APSsid t) (_APPasswd t) :: portals (history w)) /\
  (r = false -> _accessPointEnabled t = true ->
   exists h, history w' = c_portal (_APSsid t) (_APPasswd t) :: h /\
             portals h = portals (history w)).
Proof.
  intros Hrun. destruct (startup_portals _ _ _ _ _ _ Hrun) as (H1 & H2 & H3).
  split; [done|]. split; [|done].
  destruct H2 as [H2|(h & Hh & Hp)]; [by left | right].
  rewrite Hh. cbn [portals]. by rewrite Hp.
Qed.

(** The connect requests of a run of [startup] that did not find the link
    up are those of the first [k] credentials, in order; [k] is at least 1
    when the registry is not empty. *)
Lemma startup_begins fuel t w r t' w' :
  registry_ok t ->
  is_WL_CONNECTED (fst (WiFi_status w)) = false ->
  startup fuel t w = Some (r, t', w') ->
  exists k : nat,
    attempted w w' = attempt_calls 0 (take k (entries t)) /\
    (k <= length (entries t))%nat /\
    (entries t <> [] -> (1 <= k)%nat).
Proof.
  intros Hok Hlink. unfold startup.
  rewrite (connectToNetwork_in_order fuel t w Hok Hlink).
  destruct (attempts_in_order fuel t 0 (entries t) (snd (WiFi_status w)))
    as [[res w1]|] eqn:Hat; [|done].
  destruct (attempts_in_order_begins _ _ _ _ _ _ _ Hat) as (k & Hb & Hres).
  change (begins (history (snd (WiFi_status w)))) with (begins (history w))
    in Hb.
  assert ((k <= length (entries t))%nat /\
          (entries t <> [] -> (1 <= k)%nat)) as Hk.
  { destruct res as [m|]; [lia|]. subst k. split; [done|].
    destruct (entries t); [done | simpl; lia]. }
  assert (forall w2, begins (history w2) = begins (history w1) ->
            attempted w w2 = attempt_calls 0 (take k (entries t))) as Hatt.
  { intros w2 Hw2. rewrite <- Hw2 in Hb. apply attempted_since in Hb.
    by rewrite rev_involutive in Hb. }
  destruct res as [m|]; cbn [connect_result].
  { intros [= <- <- <-]. exists k. split; [by apply Hatt | done]. }
  destruct (_accessPointEnabled _).
  - pose proof (startupAccessPoint_world (_setDisconnected t) w1) as Hw.
    destruct (_startupAccessPoint _ w1) as [[up t2] w2]. simpl in Hw.
    destruct up; intros [= <- <- <-]; exists k;
      (split; [apply Hatt; by rewrite Hw | done]).
  - intros [= <- <- <-]. exists k. split; [by apply Hatt | done].
Qed.

End Fallback.

Section Composition.
Context {header : WiFiBase_h}.

(** X12. The access-point setting decides the fallback.  After
    [disableAccessPoint] a run of [startup] never starts the config portal;
    after [configureAccessPoint s p] a run that returns false has started it,
    as its last call, with [s] and [p]. *)
Theorem accessPoint_setting_governs_fallback (env : Collaborators)
    fuel t0 s p w r t' w' :
  reachable t0 ->
  (startup fuel (snd (disableAccessPoint t0)) w = Some (r, t', w') ->
   portals (history w') = portals (history w)) /\
  (startup fuel (snd (configureAccessPoint t0 s p)) w = Some (false, t', w') ->
   exists h, history w' = c_portal (Some s) (Some p) :: h /\
             portals h = portals (history w)).
Proof.
  intros Hr. destruct (reachable_flags t0 Hr) as [_ Ha]. split.
  - intros Hrun. apply startup_portals in Hrun as (Hoff & _). apply Hoff.
    unfold disableAccessPoint. by rewrite Ha.
  - intros Hrun. apply startup_portals in Hrun as (_ & _ & Hon).
    unfold configureAccessPoint in Hon. rewrite Ha in Hon.
    by apply Hon.
Qed.

Lemma startup_prefix (env : Collaborators) fuel t w r t' w' :
  header_ok -> registry_ok t ->
  startup fuel t w = Some (r, t', w') ->
  entries t `prefix_of` entries t'.
Proof.
  intros Hh Hok Hrun. unfold startup in Hrun.
  destruct (_connectToNetwork fuel t w) as [[[r1 t1] w1]|] eqn:Hnet; [|done].
  apply connectToNetwork_frame in Hnet as [_ Hreg].
  assert (entries t1 = entries t) as He
    by (unfold entries, registry in *; by injection Hreg as -> _ ->).
  assert (registry_ok t1) as Hok1 by (by apply (registry_ok_ext t1 t)).
  destruct r1; [injection Hrun as <- <- <-; by rewrite He|].
  destruct (_accessPointEnabled t1);
    [|injection Hrun as <- <- <-; by rewrite He].
  destruct (startupAccessPoint_entries t1 w1 Hh Hok1) as [Hp _].
  destruct (_startupAccessPoint t1 w1) as [[up t2] w2]; simpl in Hp.
  rewrite He in Hp. destruct up; by injection Hrun as <- <- <-.
Qed.

(** Whatever the public functions do to an object, its registry stays well
    formed and keeps the credentials it had, at their positions. *)
Lemma reachable_from_prefix t0 t :
  header_ok -> registry_ok t0 -> reachable_from t0 t ->
  registry_ok t /\ entries t0 `prefix_of` entries t.
Proof.
  intros Hh Hok0.
  induction 1 as [ | t b _ [Hok Hp] | t s p _ [Hok Hp] | t _ [Hok Hp]
                 | t name secret _ [Hok Hp] | t ms _ [Hok Hp]
                 | env fuel t w r t' w' _ [Hok Hp] Hrun].
  - done.
  - unfold configBackground. destruct (_running t); [done|].
    split; [by apply (registry_ok_ext _ t) | done].
  - unfold configureAccessPoint. destruct (_accessPointActive t); [done|].
    split; [by apply (registry_ok_ext _ t) | done].
  - unfold disableAccessPoint. destruct (_accessPointActive t); simpl;
      (split; [by apply (registry_ok_ext _ t) | done]).
  - split; [by apply registry_ok_add|]. etrans; [exact Hp|].
    destruct (add_entries_cases t name secret Hh Hok) as [->|(_ & _ & ->)];
      [done | by apply prefix_app_r].
  - split; [by apply (registry_ok_ext _ t) | done].
  - split; [by eapply startup_registry_ok|]. etrans; [exact Hp|].
    by eapply startup_prefix.
Qed.

(** X13. An object constructed with the stored credential keeps it at
    position 0 whatever the public functions do to it afterwards, and every
    [startup] that does not find the link up makes [WiFi.begin()] without
    arguments its first connect request. *)
Theorem stored_credential_tried_first (env : Collaborators)
    t fuel w r t' w' :
  header_ok ->
  reachable_from (new_WiFiBase true true) t ->
  is_WL_CONNECTED (fst (WiFi_status w)) = false ->
  startup fuel t w = Some (r, t', w') ->
  entries t !! 0%nat = Some (Network "" "") /\
  lookupKnownNetwork t "" = 0 /\
  exists rest, attempted w w' = c_begin_stored :: rest.
Proof.
  intros Hh Hfrom Hlink Hrun.
  destruct (reachable_from_prefix _ t Hh (new_WiFiBase_ok true true) Hfrom)
    as [Hok [more Hp]].
  change (entries (new_WiFiBase true true)) with [Network "" ""] in Hp.
  split; [by rewrite Hp|]. split.
  { apply (lookupKnownNetwork_at t 0 "" Hok). unfold names. by rewrite Hp. }
  destruct (startup_begins fuel t w r t' w' Hok Hlink Hrun)
    as (k & Hatt & _ & Hk).
  rewrite Hp in Hatt, Hk.
  destruct k as [|k]; [specialize (Hk ltac:(done)); lia|].
  eexists. exact Hatt.
Qed.

End Composition.

(** * The further properties at concrete objects *)

Lemma reachable_add_all {header : WiFiBase_h} t cs :
  reachable t -> reachable (snd (add_all t cs)).
Proof.
  revert t. induction cs as [|[n s] cs IH]; intros t Hr; [done|].
  cbn [add_all]. pose proof (reach_addKnownNetwork t n s Hr) as Hr1.
  destruct (addKnownNetwork t n s) as [r t1]. simpl in Hr1.
  specialize (IH t1 Hr1). by destruct (add_all t1 cs).
Qed.

Lemma registry_of_reachable {header : WiFiBase_h} cs :
  reachable (registry_of cs).
Proof. apply reachable_add_all, reach_new. Qed.

Lemma header_max3_ok : @header_ok header_max3.
Proof. split; [unfold growth_ok; simpl; lia | left; simpl; lia]. Qed.

(** A, B and C are stored once each and the count is 3. *)
Lemma reachable_registry_invariant_witness :
  NoDup (names (@registry_of header_max8 abc_calls)) /\
  numKnownNetworks (@registry_of header_max8 abc_calls)
    = Z.of_nat (length (entries (@registry_of header_max8 abc_calls))).
Proof.
  destruct (@reachable_registry_invariant header_max8
              (@registry_of header_max8 abc_calls) header_max8_ok
              (@registry_of_reachable header_max8 abc_calls))
    as (H1 & H2 & _).
  exact (conj H1 H2).
Defined.

(** B is known in the registry A, B, C and found at a position holding it. *)
Lemma hasKnownNetwork_iff_stored_witness :
  @hasKnownNetwork header_max8 (@registry_of header_max8 abc_calls) "B"
    = true /\
  0 <= @lookupKnownNetwork header_max8 (@registry_of header_max8 abc_calls) "B"
    < numKnownNetworks (@registry_of header_max8 abc_calls).
Proof.
  destruct (@hasKnownNetwork_iff_stored header_max8
              (@registry_of header_max8 abc_calls) "B"
              (proj2 header_max8_ok)
              (@reachable_registry_ok header_max8 _ header_max8_ok
                 (@registry_of_reachable header_max8 abc_calls)))
    as (H1 & H2 & _).
  assert ("B" ∈ names (@registry_of header_max8 abc_calls)) as Hin
    by (apply list_elem_of_In; vm_compute; tauto).
  split; [by apply H1 | by apply H2].
Defined.

(** D is added to A, B, C and then found at index 3 with its secret. *)
Lemma addKnownNetwork_then_lookup_witness :
  @hasKnownNetwork header_max8
    (snd (@addKnownNetwork header_max8 (@registry_of header_max8 abc_calls)
            "D" "pwD")) "D" = true /\
  @lookupKnownNetwork header_max8
    (snd (@addKnownNetwork header_max8 (@registry_of header_max8 abc_calls)
            "D" "pwD")) "D"
  = numKnownNetworks (@registry_of header_max8 abc_calls).
Proof.
  destruct (@addKnownNetwork_then_lookup header_max8
              (@registry_of header_max8 abc_calls) "D" "pwD"
              header_max8_ok
              (@reachable_registry_ok header_max8 _ header_max8_ok
                 (@registry_of_reachable header_max8 abc_calls))
              ltac:(vm_compute; reflexivity))
    as (H1 & _ & H3 & _).
  split; [exact H1 | apply H3]. not_listed.
Defined.

(** Adding D to A, B, C leaves B at its index. *)
Lemma addKnownNetwork_keeps_lookups_witness :
  @lookupKnownNetwork header_max8
    (snd (@addKnownNetwork header_max8 (@registry_of header_max8 abc_calls)
            "D" "pwD")) "B"
  = @lookupKnownNetwork header_max8 (@registry_of header_max8 abc_calls) "B".
Proof.
  apply (@addKnownNetwork_keeps_lookups header_max8
           (@registry_of header_max8 abc_calls) "D" "pwD" "B"
           header_max8_ok
           (@reachable_registry_ok header_max8 _ header_max8_ok
              (@registry_of_reachable header_max8 abc_calls))).
  left. discriminate.
Defined.

(** With [MAX_KNOWN_NETWORKS = 3] the ceiling is 4: three names are stored
    and a fourth is not refused. *)
Lemma addKnownNetwork_refused_at_ceiling_witness :
  (fst (@addKnownNetwork header_max3 (@registry_of header_max3 abc_calls)
          "D" "pwD") = false <->
   numKnownNetworks (@registry_of header_max3 abc_calls)
     = @capacity_ceiling header_max3) /\
  @capacity_ceiling header_max3 < 2 * @MAX_KNOWN_NETWORKS header_max3.
Proof.
  destruct (@addKnownNetwork_refused_at_ceiling header_max3
              (@registry_of header_max3 abc_calls) "D" "pwD"
              header_max3_ok
              (@reachable_registry_ok header_max3 _ header_max3_ok
                 (@registry_of_reachable header_max3 abc_calls))
              ltac:(not_listed))
    as (H1 & _ & _ & H4).
  split; [exact H1 | apply H4]. simpl. lia.
Defined.

(** The fallback on a fresh object with a configured access point appends
    the learned credential and changes no setting. *)
Lemma startup_append_only_witness :
  exists t' w',
    @startup header_max2 portal_learns 1
      (snd (configureAccessPoint (@new_WiFiBase header_max2 false false)
              "SetupAP" "appw")) boot = Some (true, t', w') /\
    entries (snd (configureAccessPoint (@new_WiFiBase header_max2 false false)
                    "SetupAP" "appw")) `prefix_of` entries t' /\
    settings t'
    = settings (snd (configureAccessPoint
                       (@new_WiFiBase header_max2 false false)
                       "SetupAP" "appw")).
Proof.
  eexists _, _. split; [vm_compute; reflexivity|].
  destruct (@startup_append_only header_max2 portal_learns 1
              (snd (configureAccessPoint
                      (@new_WiFiBase header_max2 false false)
                      "SetupAP" "appw")) boot true _ _
              header_max2_ok
              (@reachable_registry_ok header_max2 _ header_max2_ok
                 (reach_configureAccessPoint _ "SetupAP" "appw"
                    (reach_new false false)))
              ltac:(vm_compute; reflexivity))
    as (H1 & _ & _ & H4).
  exact (conj H1 H4).
Defined.

(** Every request for A, B, C is refused and no access point is configured:
    [startup] returns false and the object is disconnected. *)
Lemma startup_failure_resets_witness :
  exists t' w',
    @startup header_max8 all_refused 1 (@registry_of header_max8 abc_calls)
      boot = Some (false, t', w') /\
    t' = @_setDisconnected header_max8 (@registry_of header_max8 abc_calls) /\
    @connected header_max8 t' = false.
Proof.
  eexists _, _. split; [vm_compute; reflexivity|].
  destruct (@startup_failure_resets header_max8 all_refused 1
              (@registry_of header_max8 abc_calls) boot _ _
              ltac:(vm_compute; reflexivity))
    as (H1 & _ & H3 & _).
  exact (conj H1 H3).
Defined.

(** A timeout of 500 ms, a request that never resolves and a status query
    of 1 ms, no call longer than 100 ms: the wait ends within 1000 ms. *)
Lemma connectWait_duration_witness :
  @_connectWait A_hangs_B_accepts 7 abc_500 A_asked
    = Some (false, A_given_up) /\
  now A_asked <= now A_given_up
    <= now A_asked + _connectionTimeoutMs abc_500 + 5 * 100.
Proof.
  split; [vm_compute; reflexivity|].
  apply (@connectWait_duration A_hangs_B_accepts 100 7 abc_500 A_asked false
           A_given_up slow_status_clock
           ltac:(vm_compute; discriminate)
           ltac:(vm_compute; reflexivity)
           ltac:(vm_compute; reflexivity)).
Defined.

(** A, B, C with a timeout of 500 ms, no access point and no call longer
    than 100 ms: [startup] returns with a budget of 7 polls for each wait,
    within 100 + 3 * 1100 ms. *)
Lemma startup_returns_in_time_witness :
  exists r t' w',
    @startup header_max8 A_hangs_B_accepts 7 abc_500 boot
      = Some (r, t', w') /\
    now boot <= now w' <=
      now boot + 100
      + numKnownNetworks abc_500 * (_connectionTimeoutMs abc_500 + 6 * 100).
Proof.
  apply (@startup_returns_in_time header_max8 A_hangs_B_accepts 100 7
           abc_500 boot slow_status_clock abc_500_ok
           ltac:(vm_compute; discriminate)
           ltac:(vm_compute; reflexivity)
           ltac:(vm_compute; apply le_n)
           ltac:(vm_compute; reflexivity)).
Defined.

(** Only B is accepted: the connected index is a position of A, B, C. *)
Lemma startup_index_valid_witness :
  exists t' w',
    @startup header_max8 only_B 1 (@registry_of header_max8 abc_calls) boot
      = Some (true, t', w') /\
    0 <= _connectedIndex t' < numKnownNetworks t'.
Proof.
  eexists _, _. split; [vm_compute; reflexivity|].
  apply (@startup_index_valid header_max8 only_B 1
           (@registry_of header_max8 abc_calls) boot _ _
           header_max8_ok
           (@reachable_registry_ok header_max8 _ header_max8_ok
              (@registry_of_reachable header_max8 abc_calls))
           ltac:(vm_compute; discriminate)
           ltac:(vm_compute; reflexivity)
           ltac:(vm_compute; reflexivity)).
Defined.

(** With the access point configured and nothing to connect to, the portal
    is started once, with the configured name and secret. *)
Lemma startup_portal_only_when_enabled_witness :
  exists t' w',
    @startup header_max2 portal_learns 1
      (snd (configureAccessPoint (@new_WiFiBase header_max2 false false)
              "SetupAP" "appw")) boot = Some (true, t', w') /\
    (portals (history w') = portals (history boot) \/
     portals (history w')
     = c_portal (Some "SetupAP") (Some "appw") :: portals (history boot)).
Proof.
  eexists _, _. split; [vm_compute; reflexivity|].
  apply (@startup_portal_only_when_enabled header_max2 portal_learns 1
           (snd (configureAccessPoint (@new_WiFiBase header_max2 false false)
                   "SetupAP" "appw")) boot true _ _
           ltac:(vm_compute; reflexivity)).
Defined.

(** A configured access point whose portal fails: the failing run ends with
    the portal call. *)
Lemma accessPoint_setting_governs_fallback_witness :
  exists t' w' h,
    @startup header_max8 all_refused 1
      (snd (configureAccessPoint (@new_WiFiBase header_max8 false false)
              "SetupAP" "appw")) boot = Some (false, t', w') /\
    history w' = c_portal (Some "SetupAP") (Some "appw") :: h /\
    portals h = portals (history boot).
Proof.
  destruct (@accessPoint_setting_governs_fallback header_max8 all_refused 1
              (@new_WiFiBase header_max8 false false) "SetupAP" "appw" boot
              false
              (@_setDisconnected header_max8
                 (snd (configureAccessPoint
                         (@new_WiFiBase header_max8 false false)
                         "SetupAP" "appw")))
              (log (c_portal (Some "SetupAP") (Some "appw"))
                 (log c_status boot))
              (reach_new false false)) as [_ H2].
  destruct (H2 ltac:(vm_compute; reflexivity)) as (h & Hh & Hp).
  eexists _, _, h. split; [vm_compute; reflexivity|]. exact (conj Hh Hp).
Defined.

(** Seeded with the stored credential; then B was added, the timeout set,
    a [startup] failed and the access point was configured: the first request
    of the next [startup] is again [WiFi.begin()]. *)
Lemma stored_credential_tried_first_witness :
  exists rest,
    @startup header_max8 all_refused 1 stored_and_B_later boot
      = Some (false, @_setDisconnected header_max8 stored_and_B_later,
              stored_and_B_later_world) /\
    attempted boot stored_and_B_later_world = c_begin_stored :: rest.
Proof.
  destruct (@stored_credential_tried_first header_max8 all_refused
              stored_and_B_later 1 boot false
              (@_setDisconnected header_max8 stored_and_B_later)
              stored_and_B_later_world header_max8_ok) as (_ & _ & rest & Hr).
  - apply from_configureAccessPoint.
    apply (@from_startup header_max8 _ all_refused 1
             (snd (@setConnectTimeoutMs
                     (snd (@addKnownNetwork header_max8
                             (@new_WiFiBase header_max8 true true)
                             "B" "pwB")) 500))
             boot false _ all_refused_world).
    + apply from_setConnectTimeoutMs, from_addKnownNetwork, from_here.
    + vm_compute; reflexivity.
  - vm_compute; reflexivity.
  - vm_compute; reflexivity.
  - exists rest. split; [vm_compute; reflexivity | exact Hr].
Defined.
